(** * Project metadata prebuild script: a shallow embedding

    This development models [scripts/prebuild_fetch_project_meta.py]: the
    reader of the simple [projects.yaml] list format, the HTML meta-tag
    collector, the card builder and the driver loop of [main].

    A Python [str] is a [string] whose characters stand for the code points
    below 256.  A Python [dict] is an insertion-ordered association list with
    unique keys.  Exceptions are explicit: a computation that may raise
    returns a [result]. *)

From Stdlib Require Import String Ascii List Bool Arith Lia.
From Stdlib Require Import Strings.Byte.
Import ListNotations.
Open Scope string_scope.
Open Scope list_scope.

(** ** Python strings *)

Module PyStr.

(** [bool(s)] for a [str]: true exactly for non-empty strings. *)
Definition truthy (s : string) : bool :=
  match s with
  | EmptyString => false
  | String _ _ => true
  end.

(** [c.isspace()] on the code points below 256: TAB, LF, VT, FF, CR,
    FS, GS, RS, US, SPACE, NEL and NBSP. *)
Definition isspace (c : ascii) : bool :=
  let n := nat_of_ascii c in
  (((9 <=? n) && (n <=? 13)) || ((28 <=? n) && (n <=? 32))
   || (n =? 133) || (n =? 160))%nat.

(** [s.lstrip()] *)
Fixpoint lstrip (s : string) : string :=
  match s with
  | EmptyString => EmptyString
  | String c s' => if isspace c then lstrip s' else s
  end.

(** [s.rstrip()] *)
Fixpoint rstrip (s : string) : string :=
  match s with
  | EmptyString => EmptyString
  | String c s' =>
      match rstrip s' with
      | EmptyString => if isspace c then EmptyString else String c EmptyString
      | r => String c r
      end
  end.

(** [s.strip()] *)
Definition strip (s : string) : string := lstrip (rstrip s).

(** [s.startswith(p)] *)
Fixpoint startswith (p s : string) : bool :=
  match p, s with
  | EmptyString, _ => true
  | String a p', String b s' => Ascii.eqb a b && startswith p' s'
  | String _ _, EmptyString => false
  end.

(** [s[n:]] for [n >= 0] *)
Fixpoint drop (n : nat) (s : string) : string :=
  match n, s with
  | O, _ => s
  | S n', String _ s' => drop n' s'
  | S _, EmptyString => EmptyString
  end.

(** [s[:-1]] *)
Fixpoint drop_last (s : string) : string :=
  match s with
  | EmptyString => EmptyString
  | String c s' =>
      match s' with
      | EmptyString => EmptyString
      | String _ _ => String c (drop_last s')
      end
  end.

(** [s[1:-1]] *)
Definition slice_1_m1 (s : string) : string := drop_last (drop 1 s).

(** [s.endswith(p)] *)
Definition endswith (p s : string) : bool :=
  (String.length p <=? String.length s)%nat
  && String.eqb (drop (String.length s - String.length p) s) p.

(** [c in s] for a one-character [c] *)
Fixpoint contains (c : ascii) (s : string) : bool :=
  match s with
  | EmptyString => false
  | String a s' => Ascii.eqb a c || contains c s'
  end.

(** [s.split(c, 1)] read as a pair.  The source unpacks the result into
    two names and calls it only under [c in s]; without the separator the
    pair is [s] and the empty string, a case the callers never reach. *)
Fixpoint split_once (c : ascii) (s : string) : string * string :=
  match s with
  | EmptyString => (EmptyString, EmptyString)
  | String a s' =>
      if Ascii.eqb a c then (EmptyString, s')
      else let (k, v) := split_once c s' in (String a k, v)
  end.

(** [c.lower()] on the code points below 256: A-Z and the Latin-1
    capitals except the multiplication sign. *)
Definition lower_char (c : ascii) : ascii :=
  let n := nat_of_ascii c in
  if (((65 <=? n) && (n <=? 90))
      || ((192 <=? n) && (n <=? 214))
      || ((216 <=? n) && (n <=? 222)))%nat
  then ascii_of_nat (n + 32) else c.

(** [s.lower()] *)
Fixpoint lower (s : string) : string :=
  match s with
  | EmptyString => EmptyString
  | String c s' => String (lower_char c) (lower s')
  end.

(** Line boundaries of [s.splitlines()] below 256, CR LF apart: LF, VT,
    FF, CR, FS, GS, RS and NEL. *)
Definition is_linebreak (c : ascii) : bool :=
  let n := nat_of_ascii c in
  (((10 <=? n) && (n <=? 13)) || ((28 <=? n) && (n <=? 30))
   || (n =? 133))%nat.

(** [s.splitlines()], the line under construction carried in [cur].
    [after_cr] drops the LF of a CR LF pair.  An empty tail produces no
    line. *)
Fixpoint splitlines_aux (s : string) (cur : string) (after_cr : bool)
  : list string :=
  match s with
  | EmptyString => if truthy cur then [cur] else []
  | String c s' =>
      if after_cr && Ascii.eqb c "010"%char then
        splitlines_aux s' EmptyString false
      else if is_linebreak c then
        cur :: splitlines_aux s' EmptyString (Ascii.eqb c "013"%char)
      else
        splitlines_aux s' (cur ++ String c EmptyString) false
  end.

Definition splitlines (s : string) : list string :=
  splitlines_aux s EmptyString false.

End PyStr.

(** ** Python dictionaries *)

Module PyDict.
Section Dict.
Context {V : Type}.

Definition dict := list (string * V).

(** [d.get(k)] *)
Fixpoint get (k : string) (d : dict) : option V :=
  match d with
  | [] => None
  | (k', v) :: d' => if String.eqb k k' then Some v else get k d'
  end.

(** [d[k] = v]: an existing key keeps its position, a new key goes last. *)
Fixpoint set (k : string) (v : V) (d : dict) : dict :=
  match d with
  | [] => [(k, v)]
  | (k', v') :: d' =>
      if String.eqb k k' then (k', v) :: d' else (k', v') :: set k v d'
  end.

(** [d.setdefault(k, v)] for its effect on [d] *)
Definition setdefault (k : string) (v : V) (d : dict) : dict :=
  match get k d with
  | Some _ => d
  | None => set k v d
  end.

(** [bool(d)] *)
Definition truthy (d : dict) : bool :=
  match d with
  | [] => false
  | _ :: _ => true
  end.

Definition keys (d : dict) : list string := map fst d.

End Dict.
Arguments dict V : clear implicits.
End PyDict.

(** ** Exceptions *)

(** The classes the handler of [main] tells apart; [HTTPError] is a
    subclass of [URLError].  Every other class is an [OtherError] carrying
    its name. *)
Inductive exn_class : Type :=
| URLError
| HTTPError
| TimeoutError
| OtherError (name : string).

(** An exception: its class and [str(exc)]. *)
Record exn : Type := mkExn { exn_cls : exn_class; exn_str : string }.

Inductive result (A : Type) : Type :=
| Ok (a : A)
| Raise (e : exn).
Arguments Ok {A} a.
Arguments Raise {A} e.

Definition rbind {A B : Type} (r : result A) (f : A -> result B) : result B :=
  match r with
  | Ok a => f a
  | Raise e => Raise e
  end.

Notation "x <- c1 ;; c2" := (rbind c1 (fun x => c2))
  (at level 61, c1 at next level, right associativity).

(** ** Values *)

(** The objects stored in a project record: strings, the [stack] list,
    and the card that [main] adds. *)
Inductive value : Type :=
| VStr (s : string)
| VList (l : list string)
| VDict (d : PyDict.dict string).

Definition record := PyDict.dict value.

(** ** The list-format reader *)

(** The one-character strings of the double quote and of the line feed. *)
Definition DQ : string := String "034"%char EmptyString.
Definition LF : string := String "010"%char EmptyString.

(** [_strip_quotes(value)] *)
Definition _strip_quotes (value : string) : string :=
  let value := PyStr.strip value in
  if PyStr.startswith DQ value && PyStr.endswith DQ value then
    PyStr.slice_1_m1 value
  else if PyStr.startswith "'" value && PyStr.endswith "'" value then
    PyStr.slice_1_m1 value
  else value.

(** The local variables of [parse_projects_yaml]. *)
Record pstate : Type := mkPState {
  items : list record;
  current : option record;
  in_stack : bool
}.

Definition pstate0 : pstate :=
  {| items := []; current := None; in_stack := false |}.

(** [if current: items.append(current)] *)
Definition flush (items : list record) (current : option record)
  : list record :=
  match current with
  | Some c => if PyDict.truthy c then items ++ [c] else items
  | None => items
  end.

(** [current[k].append(x)]; a value that is not a list has no [append]. *)
Definition append_at (k : string) (x : string) (d : record) : result record :=
  match PyDict.get k d with
  | Some (VList l) => Ok (PyDict.set k (VList (l ++ [x])) d)
  | Some _ =>
      Raise (mkExn (OtherError "AttributeError")
                   "'str' object has no attribute 'append'")
  | None => Raise (mkExn (OtherError "KeyError") k)
  end.

(** [key, value = line.split(":", 1); current[key.strip()] = _strip_quotes(value)] *)
Definition set_field (line : string) (cur : record) : record :=
  let (key, value) := PyStr.split_once ":" line in
  PyDict.set (PyStr.strip key) (VStr (_strip_quotes value)) cur.

(** One turn of the loop over the lines. *)
Definition parse_line (st : pstate) (raw_line : string) : result pstate :=
  let line := PyStr.rstrip raw_line in
  if negb (PyStr.truthy line) || PyStr.startswith "#" (PyStr.lstrip line) then
    Ok st
  else if PyStr.startswith "- " line then
    let items' := flush (items st) (current st) in
    let line := PyStr.drop 2 line in
    let cur := if PyStr.contains ":" line then set_field line [] else [] in
    Ok {| items := items'; current := Some cur; in_stack := false |}
  else
    match current st with
    | None => Ok st
    | Some cur =>
        if PyStr.startswith "  stack:" line then
          Ok {| items := items st;
                current := Some (PyDict.set "stack" (VList []) cur);
                in_stack := true |}
        else if in_stack st && PyStr.startswith "    - " line then
          let stack_item := _strip_quotes (PyStr.drop 6 line) in
          if PyStr.truthy stack_item then
            cur' <- append_at "stack" stack_item
                      (PyDict.setdefault "stack" (VList []) cur) ;;
            Ok {| items := items st; current := Some cur';
                  in_stack := in_stack st |}
          else Ok st
        else if PyStr.startswith "  " line && PyStr.contains ":" line then
          Ok {| items := items st; current := Some (set_field line cur);
                in_stack := false |}
        else Ok st
    end.

(** The loop. *)
Fixpoint parse_loop (st : pstate) (lines : list string) : result pstate :=
  match lines with
  | [] => Ok st
  | raw_line :: rest => st' <- parse_line st raw_line ;; parse_loop st' rest
  end.

(** The reader on the lines of the file. *)
Definition parse_lines (lines : list string) : result (list record) :=
  st <- parse_loop pstate0 lines ;;
  Ok (flush (items st) (current st)).

(** [parse_projects_yaml], on the text that [path.read_text] returns. *)
Definition parse_projects_yaml (text : string) : result (list record) :=
  parse_lines (PyStr.splitlines text).


(** *** Records, blocks and the reader's invariant *)

(** A line that starts a record. *)
Definition is_record_start (raw_line : string) : bool :=
  PyStr.startswith "- " (PyStr.rstrip raw_line).

(** The lines before the first record start, and then the blocks: each
    block is a record-start line with the lines up to the next one. *)
Fixpoint split_records (lines : list string)
  : list string * list (list string) :=
  match lines with
  | [] => ([], [])
  | l :: rest =>
      let (pre, blocks) := split_records rest in
      if is_record_start l then ([], (l :: pre) :: blocks)
      else (l :: pre, blocks)
  end.

Definition record_blocks (lines : list string) : list (list string) :=
  snd (split_records lines).

(** The record the reader holds in [current] after the lines of one block,
    read on their own. *)
Definition block_record (block : list string) : result record :=
  st <- parse_loop pstate0 block ;;
  Ok (match current st with Some c => c | None => [] end).

(** What [flush] appends. *)
Definition kept (current : option record) : list record :=
  match current with
  | Some c => if PyDict.truthy c then [c] else []
  | None => []
  end.

Definition with_items (xs : list record) (st : pstate) : pstate :=
  {| items := xs; current := current st; in_stack := in_stack st |}.

(** While [in_stack] holds, [current] has a list under [stack]. *)
Definition stack_inv (st : pstate) : Prop :=
  in_stack st = true ->
  exists cur l, current st = Some cur /\ PyDict.get "stack" cur = Some (VList l).

(** Number of leading spaces of a line. *)
Fixpoint leading_spaces (s : string) : nat :=
  match s with
  | String c s' => if Ascii.eqb c " "%char then S (leading_spaces s') else 0
  | EmptyString => 0
  end.

(** The record a record-start line opens. *)
Definition start_record (raw_line : string) : record :=
  let line := PyStr.drop 2 (PyStr.rstrip raw_line) in
  if PyStr.contains ":" line then set_field line [] else [].

(** A line of the form of a stack item, and the value it carries. *)
Definition is_stack_item (raw_line : string) : bool :=
  PyStr.startswith "    - " (PyStr.rstrip raw_line).

Definition stack_item_value (raw_line : string) : string :=
  _strip_quotes (PyStr.drop 6 (PyStr.rstrip raw_line)).

(** A line inside a record that leaves the key [stack] alone: it starts
    no record, does not open the stack list, is no stack item, and the key
    it would set is not [stack]. *)
Definition leaves_stack (raw_line : string) : bool :=
  let line := PyStr.rstrip raw_line in
  negb (is_record_start raw_line)
  && negb (PyStr.startswith "  stack:" line)
  && negb (is_stack_item raw_line)
  && negb (String.eqb (PyStr.strip (fst (PyStr.split_once ":" line))) "stack").

(** ** The HTML metadata extractor *)

(** The calls [HTMLParser.feed] makes on the parser, in document order.
    Attribute values are [None] for attributes written without a value. *)
Inductive html_event : Type :=
| StartTag (tag : string) (attrs : list (string * option string))
| EndTag (tag : string)
| Data (data : string).

(** The attributes of [MetaParser]. *)
Record MetaParser : Type := mkMetaParser {
  meta : PyDict.dict string;
  title : string;
  _in_title : bool
}.

(** [MetaParser.__init__] *)
Definition MetaParser0 : MetaParser :=
  {| meta := []; title := EmptyString; _in_title := false |}.

(** [bool(x)] for an [Optional[str]] *)
Definition truthy_opt (x : option string) : bool :=
  match x with
  | Some s => PyStr.truthy s
  | None => false
  end.

(** [a or b] for two [Optional[str]] *)
Definition or_opt (a b : option string) : option string :=
  if truthy_opt a then a else b.

(** [a or b] for an [Optional[str]] and a [str] *)
Definition or_str (a : option string) (b : string) : string :=
  match a with
  | Some s => if PyStr.truthy s then s else b
  | None => b
  end.

(** [a or b] for two [str] *)
Definition str_or (a b : string) : string :=
  if PyStr.truthy a then a else b.

(** [{k.lower(): v for k, v in attrs if k and v}] *)
Definition attrs_dict (attrs : list (string * option string))
  : PyDict.dict string :=
  fold_left
    (fun d kv =>
       match kv with
       | (k, Some v) =>
           if PyStr.truthy k && PyStr.truthy v
           then PyDict.set (PyStr.lower k) v d else d
       | (_, None) => d
       end)
    attrs [].

(** [MetaParser.handle_starttag] *)
Definition handle_starttag (self : MetaParser) (tag : string)
           (attrs : list (string * option string)) : MetaParser :=
  if String.eqb (PyStr.lower tag) "meta" then
    let attrs_dict := attrs_dict attrs in
    let key := or_opt (PyDict.get "property" attrs_dict)
                      (PyDict.get "name" attrs_dict) in
    let content := PyDict.get "content" attrs_dict in
    match key, content with
    | Some k, Some c =>
        if PyStr.truthy k && PyStr.truthy c then
          {| meta := PyDict.set (PyStr.lower (PyStr.strip k)) (PyStr.strip c)
                                (meta self);
             title := title self;
             _in_title := _in_title self |}
        else self
    | _, _ => self
    end
  else if String.eqb (PyStr.lower tag) "title" then
    {| meta := meta self; title := title self; _in_title := true |}
  else self.

(** [MetaParser.handle_endtag] *)
Definition handle_endtag (self : MetaParser) (tag : string) : MetaParser :=
  if String.eqb (PyStr.lower tag) "title" then
    {| meta := meta self; title := title self; _in_title := false |}
  else self.

(** [MetaParser.handle_data] *)
Definition handle_data (self : MetaParser) (data : string) : MetaParser :=
  if _in_title self then
    {| meta := meta self; title := title self ++ data;
       _in_title := _in_title self |}
  else self.

Definition handle_event (self : MetaParser) (ev : html_event) : MetaParser :=
  match ev with
  | StartTag tag attrs => handle_starttag self tag attrs
  | EndTag tag => handle_endtag self tag
  | Data data => handle_data self data
  end.

(** ** The runtime the script runs on *)

(** [urllib.request.Request(url, headers=...)] with the [timeout] of
    [urlopen]. *)
Record request : Type := mkRequest {
  req_url : string;
  req_headers : list (string * string);
  req_timeout : nat
}.

(** What the script reads from a response: the declared charset and the
    body. *)
Record response : Type := mkResponse {
  resp_charset : option string;
  resp_body : list byte
}.

(** The standard library and the network, which are not part of the
    repository.  [urlopen] stands for building the request, opening it and
    reading the response in a state of the network, any of which may raise;
    [decode charset body] is [body.decode(charset, errors="replace")];
    [html_events] is the tokenizer behind [HTMLParser.feed], a tag closed in
    place giving a start and an end event; [urljoin] is
    [urllib.parse.urljoin], taken as a total function, as the annotation of
    [resolve_url] has it; [py_repr] is [str(x)] for an object that is not a
    [str].  The tokenizer and the join are given here by what they return;
    that they may raise instead is added by [Faults] and the module
    [Raising] further down. *)
Class Runtime : Type := {
  world : Type;
  urlopen : request -> world -> result response * world;
  decode : string -> list byte -> result string;
  html_events : string -> list html_event;
  urljoin : string -> string -> string;
  py_repr : value -> string
}.

(** The state [main] runs in: the network and the requests sent so far. *)
Record io `{Runtime} : Type := mkIO {
  net : world;
  requests : list request
}.

(** Computations of the driver: they read and change the state and may
    raise. *)
Definition M `{Runtime} (A : Type) : Type := io -> result A * io.

Definition ret `{Runtime} {A : Type} (a : A) : M A := fun s => (Ok a, s).

Definition bind `{Runtime} {A B : Type} (m : M A) (f : A -> M B) : M B :=
  fun s =>
    match m s with
    | (Ok a, s') => f a s'
    | (Raise e, s') => (Raise e, s')
    end.

Definition lift `{Runtime} {A : Type} (r : result A) : M A := fun s => (r, s).

(** [try: m except classes: handler] *)
Definition try_except `{Runtime} {A : Type} (m : M A)
           (catches : exn -> bool) (handler : exn -> M A) : M A :=
  fun s =>
    match m s with
    | (Ok a, s') => (Ok a, s')
    | (Raise e, s') => if catches e then handler e s' else (Raise e, s')
    end.

Declare Scope driver_scope.
Delimit Scope driver_scope with driver.
Notation "'let*' x ':=' c1 'in' c2" := (bind c1 (fun x => c2))
  (at level 61, x name, c1 at next level, right associativity)
  : driver_scope.

(** ** Fetching a page *)

(** [fetch_html(url)] with the default [timeout]. *)
Definition fetch_html `{Runtime} (url : string) : M string :=
  fun s =>
    let req :=
      {| req_url := url;
         req_headers :=
           [("User-Agent", "Mozilla/5.0 (compatible; ProjectMetaFetcher/1.0)");
            ("Accept", "text/html,application/xhtml+xml")];
         req_timeout := 15 |} in
    let (r, w) := urlopen req (net s) in
    let s' := {| net := w; requests := requests s ++ [req] |} in
    match r with
    | Ok resp =>
        let charset := or_str (resp_charset resp) "utf-8" in
        (decode charset (resp_body resp), s')
    | Raise e => (Raise e, s')
    end.

(** ** The card builder *)

(** [resolve_url(base, candidate)] *)
Definition resolve_url `{Runtime} (base candidate : string) : string :=
  urljoin base candidate.

(** [build_card(url, meta, title_fallback, desc_fallback)] *)
Definition build_card `{Runtime} (url : string) (meta : PyDict.dict string)
           (title_fallback desc_fallback : string) : PyDict.dict string :=
  let og_title := PyDict.get "og:title" meta in
  let tw_title := PyDict.get "twitter:title" meta in
  let og_desc := PyDict.get "og:description" meta in
  let tw_desc := PyDict.get "twitter:description" meta in
  let meta_desc := PyDict.get "description" meta in
  let og_image := PyDict.get "og:image" meta in
  let tw_image := PyDict.get "twitter:image" meta in
  let card_type := PyDict.get "twitter:card" meta in
  let tw_site := PyDict.get "twitter:site" meta in
  let title := or_str (or_opt tw_title og_title) title_fallback in
  let description :=
    or_str (or_opt (or_opt tw_desc og_desc) meta_desc) desc_fallback in
  let image := or_str (or_opt tw_image og_image) EmptyString in
  let image := if PyStr.truthy image then resolve_url url image else image in
  let card_type :=
    if negb (truthy_opt card_type) then
      if PyStr.truthy image then "summary_large_image" else "summary"
    else or_str card_type EmptyString in
  [("type", card_type);
   ("title", title);
   ("description", description);
   ("image", image);
   ("site", or_str tw_site EmptyString)].

(** ** The driver *)

(** [str(x)] *)
Definition py_str `{Runtime} (x : value) : string :=
  match x with
  | VStr s => s
  | _ => py_repr x
  end.

(** [str(project.get(k, EmptyString)).strip()] *)
Definition field `{Runtime} (k : string) (project : record) : string :=
  PyStr.strip
    (py_str (match PyDict.get k project with
             | Some v => v
             | None => VStr EmptyString
             end)).

(** The card [main] starts from. *)
Definition fallback_card (title_fallback desc_fallback : string)
  : PyDict.dict string :=
  [("type", EmptyString);
   ("title", title_fallback);
   ("description", desc_fallback);
   ("image", EmptyString);
   ("site", EmptyString)].

(** The classes named by the [except] clause of [main]. *)
Definition caught (exc : exn) : bool :=
  match exn_cls exc with
  | URLError | HTTPError | TimeoutError => true
  | OtherError _ => false
  end.

(** [parser = MetaParser(); parser.feed(html)] *)
Definition feed `{Runtime} (html : string) : MetaParser :=
  fold_left handle_event (html_events html) MetaParser0.

Open Scope driver_scope.

(** The card of one project: the body of the loop of [main] up to the
    [try] statement. *)
Definition project_card `{Runtime} (project : record) : M (PyDict.dict string) :=
  let url := field "url" project in
  let title_fallback := field "name" project in
  let desc_fallback := field "description" project in
  let card := fallback_card title_fallback desc_fallback in
  if PyStr.truthy url then
    try_except
      (let* html := fetch_html url in
       let parser := feed html in
       let meta := meta parser in
       let title := str_or (PyStr.strip (title parser)) title_fallback in
       ret (build_card url meta title desc_fallback))
      caught
      (fun exc =>
         ret (PyDict.set "error" ("fetch_failed: " ++ exn_str exc)%string card))
  else ret card.

(** [enriched_item = dict(project); enriched_item["card"] = card] *)
Definition enriched_item (project : record) (card : PyDict.dict string)
  : record :=
  PyDict.set "card" (VDict card) project.

(** The loop of [main]: the list [enriched]. *)
Fixpoint enrich `{Runtime} (projects : list record) : M (list record) :=
  match projects with
  | [] => ret []
  | project :: rest =>
      let* card := project_card project in
      let* enriched := enrich rest in
      ret (enriched_item project card :: enriched)
  end.

(** What [main] writes. *)
Record payload : Type := mkPayload {
  generated_at : string;
  projects : list record
}.

Close Scope driver_scope.

(** ** A model of the standard library's URL join *)

(** [urllib.parse.urljoin] on [str] arguments, after the library's source:
    splitting into scheme, authority, path, parameters, query and fragment,
    merging the paths and removing dot segments (RFC 3986, section 5.2).
    The checks of bracketed and non-ASCII hosts, which only reject a URL,
    are left out. *)
Module UrlLib.

Local Open Scope string_scope.

Definition uses_relative : list string :=
  [EmptyString; "ftp"; "http"; "gopher"; "nntp"; "imap"; "wais"; "file";
   "https"; "shttp"; "mms"; "prospero"; "rtsp"; "rtspu"; "sftp"; "svn";
   "svn+ssh"; "ws"; "wss"].

Definition uses_netloc : list string :=
  [EmptyString; "ftp"; "http"; "gopher"; "nntp"; "telnet"; "imap"; "wais";
   "file"; "mms"; "https"; "shttp"; "snews"; "prospero"; "rtsp"; "rtspu";
   "rsync"; "svn"; "svn+ssh"; "sftp"; "nfs"; "git"; "git+ssh"; "ws"; "wss"].

Definition uses_params : list string :=
  [EmptyString; "ftp"; "hdl"; "prospero"; "http"; "imap"; "https"; "shttp";
   "rtsp"; "rtspu"; "sip"; "sips"; "mms"; "sftp"; "tel"].

Definition mem (x : string) (l : list string) : bool :=
  existsb (String.eqb x) l.

Definition is_alpha (c : ascii) : bool :=
  let n := nat_of_ascii c in
  (((65 <=? n) && (n <=? 90)) || ((97 <=? n) && (n <=? 122)))%nat.

(** Membership in [scheme_chars]. *)
Definition is_scheme_char (c : ascii) : bool :=
  let n := nat_of_ascii c in
  is_alpha c
  || (((48 <=? n) && (n <=? 57)) || (n =? 43) || (n =? 45) || (n =? 46))%nat.

Fixpoint all_chars (f : ascii -> bool) (s : string) : bool :=
  match s with
  | EmptyString => true
  | String c s' => f c && all_chars f s'
  end.

(** [url.lstrip(_WHATWG_C0_CONTROL_OR_SPACE)] *)
Fixpoint lstrip_c0 (s : string) : string :=
  match s with
  | EmptyString => EmptyString
  | String c s' => if (nat_of_ascii c <=? 32)%nat then lstrip_c0 s' else s
  end.

(** Removal of TAB, CR and LF. *)
Fixpoint remove_unsafe (s : string) : string :=
  match s with
  | EmptyString => EmptyString
  | String c s' =>
      let n := nat_of_ascii c in
      if ((n =? 9) || (n =? 13) || (n =? 10))%nat then remove_unsafe s'
      else String c (remove_unsafe s')
  end.

(** [s.split(c)] *)
Fixpoint split (c : ascii) (s : string) : list string :=
  match s with
  | EmptyString => [EmptyString]
  | String a s' =>
      if Ascii.eqb a c then EmptyString :: split c s'
      else match split c s' with
           | x :: xs => String a x :: xs
           | [] => [String a EmptyString]
           end
  end.

(** [sep.join(l)] *)
Fixpoint join (sep : string) (l : list string) : string :=
  match l with
  | [] => EmptyString
  | [x] => x
  | x :: xs => x ++ sep ++ join sep xs
  end.

(** [_splitnetloc(url, 2)] on [url[2:]] *)
Fixpoint splitnetloc (s : string) : string * string :=
  match s with
  | EmptyString => (EmptyString, EmptyString)
  | String c s' =>
      if Ascii.eqb c "/" || Ascii.eqb c "?" || Ascii.eqb c "#"
      then (EmptyString, s)
      else let (a, b) := splitnetloc s' in (String c a, b)
  end.

Record SplitResult : Type := mkSplit {
  scheme : string;
  netloc : string;
  path : string;
  query : string;
  fragment : string
}.

(** [urlsplit(url, scheme)] *)
Definition urlsplit (url scheme : string) : SplitResult :=
  let url := remove_unsafe (lstrip_c0 url) in
  let (scheme, url) :=
    let (head, rest) := PyStr.split_once ":" url in
    match head with
    | String c _ =>
        if PyStr.contains ":" url && is_alpha c
           && all_chars is_scheme_char head
        then (PyStr.lower head, rest) else (scheme, url)
    | EmptyString => (scheme, url)
    end in
  let (netloc, url) :=
    if PyStr.startswith "//" url then splitnetloc (PyStr.drop 2 url)
    else (EmptyString, url) in
  let (url, fragment) :=
    if PyStr.contains "#" url then PyStr.split_once "#" url
    else (url, EmptyString) in
  let (url, query) :=
    if PyStr.contains "?" url then PyStr.split_once "?" url
    else (url, EmptyString) in
  mkSplit scheme netloc url query fragment.

(** The part of [s] up to its last slash, and the rest. *)
Fixpoint rsplit_slash (s : string) : string * string :=
  match s with
  | EmptyString => (EmptyString, EmptyString)
  | String c s' =>
      let (h, t) := rsplit_slash s' in
      match h with
      | EmptyString =>
          if Ascii.eqb c "/" then (String c EmptyString, t)
          else (EmptyString, String c t)
      | _ => (String c h, t)
      end
  end.

(** [_splitparams(url)]: the cut is at the first semicolon after the
    last slash. *)
Definition splitparams (url : string) : string * string :=
  let (h, t) := rsplit_slash url in
  if PyStr.contains ";" t then
    let (a, b) := PyStr.split_once ";" t in (h ++ a, b)
  else (url, EmptyString).

(** [urlparse(url, scheme)]: the split result and the parameters. *)
Definition urlparse (url scheme : string) : SplitResult * string :=
  let r := urlsplit url scheme in
  if mem (UrlLib.scheme r) uses_params && PyStr.contains ";" (path r) then
    let (p, params) := splitparams (path r) in
    (mkSplit (UrlLib.scheme r) (netloc r) p (query r) (fragment r), params)
  else (r, EmptyString).

(** [urlunsplit] *)
Definition urlunsplit (r : SplitResult) : string :=
  let url := path r in
  let url :=
    if PyStr.truthy (netloc r)
       || (PyStr.truthy (scheme r) && mem (scheme r) uses_netloc
           && negb (PyStr.startswith "//" url))
    then
      let url :=
        if PyStr.truthy url && negb (PyStr.startswith "/" url)
        then "/" ++ url else url in
      "//" ++ netloc r ++ url
    else url in
  let url := if PyStr.truthy (scheme r) then scheme r ++ ":" ++ url else url in
  let url := if PyStr.truthy (query r) then url ++ "?" ++ query r else url in
  if PyStr.truthy (fragment r) then url ++ "#" ++ fragment r else url.

(** [urlunparse] *)
Definition urlunparse (r : SplitResult) (params : string) : string :=
  let url := if PyStr.truthy params then path r ++ ";" ++ params else path r in
  urlunsplit (mkSplit (scheme r) (netloc r) url (query r) (fragment r)).

(** [segments[1:-1] = filter(None, segments[1:-1])] *)
Definition squeeze (segments : list string) : list string :=
  match segments with
  | first :: (_ :: _) as rest =>
      (first :: filter PyStr.truthy (removelast rest)
         ++ [last rest EmptyString])%list
  | _ => segments
  end.

(** The loop over the segments: dot segments are dropped, and two dots
    pop the last segment kept so far, when there is one. *)
Definition resolve_segments (segments : list string) : list string :=
  fold_left
    (fun resolved seg =>
       if String.eqb seg ".." then removelast resolved
       else if String.eqb seg "." then resolved
       else (resolved ++ [seg])%list)
    segments [].

(** [urljoin(base, url)] *)
Definition urljoin (base url : string) : string :=
  if negb (PyStr.truthy base) then url
  else if negb (PyStr.truthy url) then base
  else
    let (b, bparams) := urlparse base EmptyString in
    let (u, params) := urlparse url (scheme b) in
    if negb (String.eqb (scheme u) (scheme b))
       || negb (mem (scheme u) uses_relative)
    then url
    else if mem (scheme u) uses_netloc && PyStr.truthy (netloc u) then
      urlunparse u params
    else
      let netloc :=
        if mem (scheme u) uses_netloc then netloc b else netloc u in
      if negb (PyStr.truthy (path u)) && negb (PyStr.truthy params) then
        let query := if PyStr.truthy (query u) then query u else query b in
        urlunparse (mkSplit (scheme u) netloc (path b) query (fragment u))
                   bparams
      else
        let base_parts := split "/" (path b) in
        let base_parts :=
          if PyStr.truthy (last base_parts EmptyString)
          then removelast base_parts else base_parts in
        let segments :=
          if PyStr.startswith "/" (path u) then split "/" (path u)
          else squeeze (base_parts ++ split "/" (path u))%list in
        let resolved_path := resolve_segments segments in
        let resolved_path :=
          let l := last segments EmptyString in
          if String.eqb l "." || String.eqb l ".."
          then (resolved_path ++ [EmptyString])%list else resolved_path in
        let joined := join "/" resolved_path in
        urlunparse
          (mkSplit (scheme u) netloc
                   (if PyStr.truthy joined then joined else "/")
                   (query u) (fragment u))
          params.

End UrlLib.

(** ** Reference readings of the precedence rules *)

(** The first candidate that is present and not empty, else the fallback. *)
Fixpoint first_nonempty (candidates : list (option string)) (fallback : string)
  : string :=
  match candidates with
  | [] => fallback
  | Some s :: rest => if PyStr.truthy s then s else first_nonempty rest fallback
  | None :: rest => first_nonempty rest fallback
  end.

(** The value of the last attribute of a tag whose lower-cased name is
    [name], among the attributes with a non-empty name and a non-empty
    value. *)
Fixpoint attr_value (name : string) (attrs : list (string * option string))
  : option string :=
  match attrs with
  | [] => None
  | (k, v) :: rest =>
      match attr_value name rest with
      | Some x => Some x
      | None =>
          match v with
          | Some v' =>
              if PyStr.truthy k && PyStr.truthy v'
                 && String.eqb (PyStr.lower k) name
              then Some v' else None
          | None => None
          end
      end
  end.

(** ** A runtime with a scripted network *)

(** The network is the list of the answers still to come: each request
    takes the next one, and a request beyond the script is refused.  Bodies
    decode byte by byte, pages have no markup, and URLs join as in
    [UrlLib]. *)
Definition scripted : Runtime :=
  {| world := list (result response);
     urlopen := fun _ w =>
       match w with
       | r :: w' => (r, w')
       | [] => (Raise (mkExn URLError "<urlopen error Connection refused>"), [])
       end;
     decode := fun _ body => Ok (string_of_list_byte body);
     html_events := fun _ => [];
     urljoin := UrlLib.urljoin;
     py_repr := fun _ => "<object>" |}.

(** A state of the driver on the scripted network. *)
Definition scripted_io (answers : list (result response))
           (sent : list request) : @io scripted :=
  @mkIO scripted answers sent.

(** ** Vocabulary of the further properties *)

(** A line the reader skips: blank once right-stripped, or a comment. *)
Definition is_skipped (raw_line : string) : bool :=
  let line := PyStr.rstrip raw_line in
  negb (PyStr.truthy line) || PyStr.startswith "#" (PyStr.lstrip line).

(** The values the reader stores: a string under any key, a list of
    non-empty strings under [stack] only, never a dictionary. *)
Definition entry_ok (kv : string * value) : Prop :=
  match snd kv with
  | VStr _ => True
  | VList l => fst kv = "stack" /\ Forall (fun x => PyStr.truthy x = true) l
  | VDict _ => False
  end.

(** A record as the reader returns it: not empty, no key twice, and
    every entry as above. *)
Definition record_ok (r : record) : Prop :=
  PyDict.truthy r = true /\ NoDup (PyDict.keys r) /\ Forall entry_ok r.

(** What the loop of the reader keeps: the records appended so far are
    well formed, and so is the current one, except that it may be empty. *)
Definition records_inv (st : pstate) : Prop :=
  Forall record_ok (items st)
  /\ forall c, current st = Some c ->
               NoDup (PyDict.keys c) /\ Forall entry_ok c.

(** A start tag that [handle_starttag] treats as a [meta] tag. *)
Definition is_meta_start (ev : html_event) : bool :=
  match ev with
  | StartTag tag _ => String.eqb (PyStr.lower tag) "meta"
  | _ => false
  end.

(** An entry of the meta map in normal form: the key lower-cased and
    trimmed, the value trimmed. *)
Definition meta_entry_ok (kv : string * string) : Prop :=
  PyStr.lower (fst kv) = fst kv
  /\ PyStr.strip (fst kv) = fst kv
  /\ PyStr.strip (snd kv) = snd kv.

(** An [Optional[str]] as the [or] chains of [build_card] see it: an empty
    string counts as absent. *)
Definition nonempty_opt (x : option string) : option string :=
  match x with
  | Some s => if PyStr.truthy s then Some s else None
  | None => None
  end.

(** The keys of the meta map that [build_card] reads. *)
Definition card_meta_keys : list string :=
  ["og:title"; "twitter:title"; "og:description"; "twitter:description";
   "description"; "og:image"; "twitter:image"; "twitter:card"; "twitter:site"].

(** The request [fetch_html] sends for a URL. *)
Definition page_request (url : string) : request :=
  {| req_url := url;
     req_headers :=
       [("User-Agent", "Mozilla/5.0 (compatible; ProjectMetaFetcher/1.0)");
        ("Accept", "text/html,application/xhtml+xml")];
     req_timeout := 15 |}.

(** The URLs [main] fetches for a list of projects, in order. *)
Definition fetched_urls `{Runtime} (projects : list record) : list string :=
  filter PyStr.truthy (map (field "url") projects).

(** A runtime without a network: every request is refused with a
    [URLError]. *)
Definition offline : Runtime :=
  {| world := unit;
     urlopen := fun _ w =>
       (Raise (mkExn URLError "<urlopen error Network is unreachable>"), w);
     decode := fun _ body => Ok (string_of_list_byte body);
     html_events := fun _ => [];
     urljoin := UrlLib.urljoin;
     py_repr := fun _ => "<object>" |}.

(** The scripted runtime with a tokenizer that answers every page with
    the same events. *)
Definition canned (events : list html_event) : Runtime :=
  {| world := list (result response);
     urlopen := fun _ w =>
       match w with
       | r :: w' => (r, w')
       | [] => (Raise (mkExn URLError "<urlopen error Connection refused>"), [])
       end;
     decode := fun _ body => Ok (string_of_list_byte body);
     html_events := fun _ => events;
     urljoin := UrlLib.urljoin;
     py_repr := fun _ => "<object>" |}.

(** The five fields of every card, in their order. *)
Definition card_keys : list string :=
  ["type"; "title"; "description"; "image"; "site"].

(** ** The driver with the library calls that raise *)

(** The two library calls that [main] makes between the fetch and the
    card, as the library has them: [HTMLParser.feed] and
    [urllib.parse.urljoin] may raise.  [tokenize] gives the events of a
    page or the exception raised while it is read; [join] gives the joined
    URL or the exception. *)
Class Faults : Type := {
  tokenize : string -> result (list html_event);
  join : string -> string -> result string
}.

Module Raising.

(** [parser = MetaParser(); parser.feed(html)] *)
Definition feed `{Faults} (html : string) : result MetaParser :=
  events <- tokenize html ;;
  Ok (fold_left handle_event events MetaParser0).

(** [resolve_url(base, candidate)] *)
Definition resolve_url `{Faults} (base candidate : string) : result string :=
  join base candidate.

(** [build_card(url, meta, title_fallback, desc_fallback)] *)
Definition build_card `{Faults} (url : string) (meta : PyDict.dict string)
           (title_fallback desc_fallback : string)
  : result (PyDict.dict string) :=
  let og_title := PyDict.get "og:title" meta in
  let tw_title := PyDict.get "twitter:title" meta in
  let og_desc := PyDict.get "og:description" meta in
  let tw_desc := PyDict.get "twitter:description" meta in
  let meta_desc := PyDict.get "description" meta in
  let og_image := PyDict.get "og:image" meta in
  let tw_image := PyDict.get "twitter:image" meta in
  let card_type := PyDict.get "twitter:card" meta in
  let tw_site := PyDict.get "twitter:site" meta in
  let title := or_str (or_opt tw_title og_title) title_fallback in
  let description :=
    or_str (or_opt (or_opt tw_desc og_desc) meta_desc) desc_fallback in
  let image := or_str (or_opt tw_image og_image) EmptyString in
  image <- (if PyStr.truthy image then resolve_url url image else Ok image) ;;
  let card_type :=
    if negb (truthy_opt card_type) then
      if PyStr.truthy image then "summary_large_image" else "summary"
    else or_str card_type EmptyString in
  Ok [("type", card_type);
      ("title", title);
      ("description", description);
      ("image", image);
      ("site", or_str tw_site EmptyString)].

(** The card of one project: the body of the loop of [main] up to the
    [try] statement.  The handler covers the whole [try] body: the fetch,
    the feed and the card. *)
Definition project_card `{Runtime} `{Faults} (project : record)
  : M (PyDict.dict string) :=
  let url := field "url" project in
  let title_fallback := field "name" project in
  let desc_fallback := field "description" project in
  let card := fallback_card title_fallback desc_fallback in
  if PyStr.truthy url then
    try_except
      (let* html := fetch_html url in
       let* parser := lift (feed html) in
       let meta := meta parser in
       let title := str_or (PyStr.strip (title parser)) title_fallback in
       lift (build_card url meta title desc_fallback))%driver
      caught
      (fun exc =>
         ret (PyDict.set "error" ("fetch_failed: " ++ exn_str exc)%string card))
  else ret card.

(** The loop of [main]: the list [enriched]. *)
Fixpoint enrich `{Runtime} `{Faults} (projects : list record)
  : M (list record) :=
  match projects with
  | [] => ret []
  | project :: rest =>
      (let* card := project_card project in
       let* enriched := enrich rest in
       ret (enriched_item project card :: enriched))%driver
  end.

End Raising.

(** [main()].  [file_exists] is the outcome of [PROJECTS_YAML.exists()],
    [read_text] that of reading the file as UTF-8, [utcnow] the ISO form of
    the current time to the second, and [write_text] the outcome of dumping
    and writing a payload.  The result is the exit status and the payload
    written.  The two messages printed are left out. *)
Definition main `{Runtime} `{Faults} (file_exists : result bool)
           (read_text : result string) (utcnow : string)
           (write_text : payload -> result unit)
  : M (nat * option payload) :=
  (let* present := lift file_exists in
   if negb present then ret (1, None)
   else
     let* text := lift read_text in
     let* projects := lift (parse_projects_yaml text) in
     let* enriched := Raising.enrich projects in
     let payload :=
       {| generated_at := (utcnow ++ "Z")%string; projects := enriched |} in
     let* written := lift (write_text payload) in
     ret (0, Some payload))%driver.

(** ** The URL join with its rejection of unbalanced brackets *)

(** The test [urlsplit] makes on the authority of a URL that starts with
    two slashes: a bracket of one kind without one of the other. *)
Definition unbalanced_brackets (netloc : string) : bool :=
  (PyStr.contains "[" netloc && negb (PyStr.contains "]" netloc))
  || (PyStr.contains "]" netloc && negb (PyStr.contains "[" netloc)).

(** [urljoin(base, url)] with the [ValueError] of the two [urlparse] calls
    it makes, first on the base and then on the URL with the scheme of the
    base.  What stands between balanced brackets and hosts outside ASCII
    are not checked here. *)
Definition urljoin_checked (base url : string) : result string :=
  let invalid := mkExn (OtherError "ValueError") "Invalid IPv6 URL" in
  if negb (PyStr.truthy base) then Ok url
  else if negb (PyStr.truthy url) then Ok base
  else
    let b := UrlLib.urlsplit base EmptyString in
    if unbalanced_brackets (UrlLib.netloc b) then Raise invalid
    else if unbalanced_brackets
              (UrlLib.netloc (UrlLib.urlsplit url (UrlLib.scheme b)))
    then Raise invalid
    else Ok (UrlLib.urljoin base url).

(** The library calls for the scripted runtimes: every page has the given
    events, and URLs join as above. *)
Definition checked (events : list html_event) : Faults :=
  {| tokenize := fun _ => Ok events; join := urljoin_checked |}.

(** Library calls that never raise: pages without markup, and the join of
    [UrlLib]. *)
Definition quiet : Faults :=
  {| tokenize := fun _ => Ok [];
     join := fun base url => Ok (UrlLib.urljoin base url) |}.

(** * Properties *)

Open Scope nat_scope.

Arguments Ascii.eqb !a !b.

(** ** Strings and dictionaries *)

Lemma startswith_app (p s : string) :
  PyStr.startswith p s = true -> exists r, s = (p ++ r)%string.
Proof.
  revert s; induction p as [|a p IH]; intros s H.
  - exists s; reflexivity.
  - destruct s as [|b s]; simpl in H; [discriminate|].
    apply andb_true_iff in H as [Hab Hps].
    apply Ascii.eqb_eq in Hab; subst b.
    destruct (IH s Hps) as [r ->].
    exists r; reflexivity.
Qed.

Lemma startswith_two_spaces (s : string) :
  PyStr.startswith "  " s = (2 <=? leading_spaces s).
Proof.
  destruct s as [|a s]; [reflexivity|].
  simpl. rewrite (Ascii.eqb_sym a).
  destruct (Ascii.eqb " " a); [|reflexivity].
  destruct s as [|b s]; [reflexivity|].
  simpl. rewrite (Ascii.eqb_sym b).
  now destruct (Ascii.eqb " " b).
Qed.

Section DictFacts.
Context {V : Type}.
Implicit Types (d : PyDict.dict V) (k : string) (v : V).

Lemma get_set_eq k v d : PyDict.get k (PyDict.set k v d) = Some v.
Proof.
  induction d as [|[k' v'] d IH]; simpl.
  - now rewrite String.eqb_refl.
  - destruct (String.eqb k k') eqn:E; simpl; rewrite E; auto.
Qed.

Lemma get_set_ne k k' v d :
  k' <> k -> PyDict.get k' (PyDict.set k v d) = PyDict.get k' d.
Proof.
  intros Hne. induction d as [|[k0 v0] d IH]; simpl.
  - now rewrite (proj2 (String.eqb_neq k' k)).
  - destruct (String.eqb_spec k k0) as [->|Hk]; simpl.
    + now rewrite (proj2 (String.eqb_neq k' k0)).
    + now rewrite IH.
Qed.

Lemma set_set k v v' d :
  PyDict.set k v' (PyDict.set k v d) = PyDict.set k v' d.
Proof.
  induction d as [|[k0 v0] d IH]; simpl.
  - now rewrite String.eqb_refl.
  - destruct (String.eqb k k0) eqn:E; simpl; rewrite E; [reflexivity|].
    now rewrite IH.
Qed.

Lemma set_truthy k v d : PyDict.truthy (PyDict.set k v d) = true.
Proof.
  destruct d as [|[k0 v0] d]; simpl; [reflexivity|].
  now destruct (String.eqb k k0).
Qed.

Lemma keys_set_present k v v0 d :
  PyDict.get k d = Some v0 ->
  PyDict.keys (PyDict.set k v d) = PyDict.keys d.
Proof.
  induction d as [|[k' v'] d IH]; simpl; [discriminate|].
  destruct (String.eqb k k') eqn:E; [reflexivity|].
  intros H. unfold PyDict.keys in *. simpl. f_equal. auto.
Qed.

Lemma keys_set_absent k v d :
  PyDict.get k d = None ->
  PyDict.keys (PyDict.set k v d) = PyDict.keys d ++ [k].
Proof.
  induction d as [|[k' v'] d IH]; simpl; [reflexivity|].
  destruct (String.eqb k k') eqn:E; [discriminate|].
  intros H. unfold PyDict.keys in *. simpl. f_equal. auto.
Qed.

End DictFacts.

(** ** The list-format reader *)

Ltac split_ifs :=
  repeat match goal with
         | |- context [if ?b then _ else _] => destruct b eqn:?
         end.

Lemma flush_kept (xs : list record) (c : option record) :
  flush xs c = xs ++ kept c.
Proof.
  destruct c as [c|]; simpl; [destruct (PyDict.truthy c)|];
    simpl; now rewrite ?app_nil_r.
Qed.

Lemma parse_line_start (st : pstate) (l : string) :
  is_record_start l = true ->
  parse_line st l =
  Ok {| items := flush (items st) (current st);
        current := Some (start_record l);
        in_stack := false |}.
Proof.
  unfold is_record_start, parse_line, start_record. intros H.
  destruct (startswith_app _ _ H) as [r ->]. reflexivity.
Qed.

Lemma parse_line_frame (xs : list record) (st : pstate) (l : string) :
  is_record_start l = false ->
  parse_line (with_items xs st) l =
  match parse_line st l with
  | Ok st' => Ok (with_items xs st')
  | Raise e => Raise e
  end.
Proof.
  unfold is_record_start, parse_line. intros ->.
  destruct st as [its [cur|] ins]; simpl; split_ifs; try reflexivity.
  destruct (append_at _ _ _); reflexivity.
Qed.

Lemma parse_line_items (st st' : pstate) (l : string) :
  is_record_start l = false ->
  parse_line st l = Ok st' -> items st' = items st.
Proof.
  unfold is_record_start, parse_line. intros ->.
  destruct st as [its [cur|] ins]; simpl; split_ifs;
    try (intros [= <-]; reflexivity).
  destruct (append_at _ _ _); simpl; [intros [= <-]; reflexivity|discriminate].
Qed.

Lemma parse_line_no_current (st : pstate) (l : string) :
  is_record_start l = false -> current st = None -> parse_line st l = Ok st.
Proof.
  unfold is_record_start, parse_line. intros -> ->. now split_ifs.
Qed.

Lemma parse_line_keeps_current (st st' : pstate) (l : string) (c : record) :
  is_record_start l = false -> current st = Some c ->
  parse_line st l = Ok st' -> exists c', current st' = Some c'.
Proof.
  unfold is_record_start, parse_line. intros -> Hc. rewrite Hc.
  split_ifs; try (intros [= <-]; simpl; eauto).
  destruct (append_at _ _ _); simpl; [intros [= <-]; simpl; eauto|discriminate].
Qed.

(** The reader never raises: the invariant keeps a list under [stack]
    whenever an item is appended. *)
Lemma parse_line_inv (st : pstate) (l : string) :
  stack_inv st -> exists st', parse_line st l = Ok st' /\ stack_inv st'.
Proof.
  intros Hinv. unfold parse_line.
  destruct (negb _ || _); [eauto|].
  destruct (PyStr.startswith "- " _).
  { eexists; split; [reflexivity|]. intros [=]. }
  destruct (current st) as [cur|] eqn:Hcur; [|eauto].
  destruct (PyStr.startswith "  stack:" _).
  { eexists; split; [reflexivity|]. intros _. simpl.
    eexists _, _; split; [reflexivity|apply get_set_eq]. }
  destruct (in_stack st && _) eqn:Hin.
  - apply andb_true_iff in Hin as [Hin _].
    destruct (Hinv Hin) as (cur' & lst & Hc & Hget).
    rewrite Hcur in Hc; injection Hc as <-.
    destruct (PyStr.truthy _); [|eauto].
    unfold PyDict.setdefault. rewrite Hget.
    unfold append_at. rewrite Hget. simpl.
    eexists; split; [reflexivity|]. intros _. simpl.
    eexists _, _; split; [reflexivity|apply get_set_eq].
  - destruct (PyStr.startswith "  " _ && _); [|eauto].
    eexists; split; [reflexivity|]. intros [=].
Qed.

Lemma parse_loop_inv (lines : list string) (st : pstate) :
  stack_inv st -> exists st', parse_loop st lines = Ok st' /\ stack_inv st'.
Proof.
  revert st; induction lines as [|l lines IH]; intros st Hinv; simpl.
  - eauto.
  - destruct (parse_line_inv st l Hinv) as (st1 & -> & Hinv1). simpl. auto.
Qed.

Lemma stack_inv0 : stack_inv pstate0.
Proof. intros [=]. Qed.

Lemma parse_loop_app (l1 l2 : list string) (st : pstate) :
  parse_loop st (l1 ++ l2) = (st' <- parse_loop st l1 ;; parse_loop st' l2).
Proof.
  revert st; induction l1 as [|l l1 IH]; intros st; simpl; [reflexivity|].
  destruct (parse_line st l); simpl; auto.
Qed.

Lemma split_records_pre (lines : list string) :
  Forall (fun l => is_record_start l = false) (fst (split_records lines)).
Proof.
  induction lines as [|l lines IH]; simpl; [constructor|].
  destruct (split_records lines) as [pre blocks].
  destruct (is_record_start l) eqn:E; simpl; auto.
Qed.

Lemma split_records_concat (lines : list string) :
  fst (split_records lines) ++ concat (record_blocks lines) = lines.
Proof.
  unfold record_blocks. induction lines as [|l lines IH]; simpl; [reflexivity|].
  destruct (split_records lines) as [pre blocks].
  destruct (is_record_start l); simpl in *; now rewrite IH.
Qed.

Lemma record_blocks_heads (lines : list string) :
  map (hd EmptyString) (record_blocks lines) = filter is_record_start lines.
Proof.
  unfold record_blocks. induction lines as [|l lines IH]; simpl; [reflexivity|].
  destruct (split_records lines) as [pre blocks].
  destruct (is_record_start l); simpl in *; now rewrite IH.
Qed.

Lemma parse_loop_frame (xs : list record) (pre : list string) :
  Forall (fun l => is_record_start l = false) pre ->
  forall st st', parse_loop st pre = Ok st' ->
  parse_loop (with_items xs st) pre = Ok (with_items xs st')
  /\ items st' = items st.
Proof.
  induction 1 as [|l pre Hl _ IH]; intros st st'; simpl.
  - intros [= <-]. auto.
  - rewrite (parse_line_frame xs st l Hl).
    destruct (parse_line st l) as [st1|e] eqn:E; simpl; [|discriminate].
    intros Hloop. destruct (IH _ _ Hloop) as [-> ->].
    split; [reflexivity|]. eapply parse_line_items; eauto.
Qed.

Lemma parse_loop_keeps_current (pre : list string) :
  Forall (fun l => is_record_start l = false) pre ->
  forall st st' c, current st = Some c -> parse_loop st pre = Ok st' ->
  exists c', current st' = Some c'.
Proof.
  induction 1 as [|l pre Hl _ IH]; intros st st' c Hc; simpl.
  - intros [= <-]. eauto.
  - destruct (parse_line st l) as [st1|e] eqn:E; simpl; [|discriminate].
    destruct (parse_line_keeps_current _ _ _ _ Hl Hc E) as [c1 Hc1]. eauto.
Qed.

Lemma parse_loop_no_current (pre : list string) :
  Forall (fun l => is_record_start l = false) pre ->
  forall st, current st = None -> parse_loop st pre = Ok st.
Proof.
  induction 1 as [|l pre Hl _ IH]; intros st Hc; simpl; [reflexivity|].
  rewrite (parse_line_no_current st l Hl Hc). simpl. auto.
Qed.

(** The loop, block by block: the lines before the first record start run
    on the state at hand, each block then contributes the record it builds
    on its own, and a record is kept when it is not empty. *)
Lemma parse_loop_blocks (lines : list string) :
  forall st, stack_inv st ->
  exists st_pre recs st_end,
    parse_loop st (fst (split_records lines)) = Ok st_pre
    /\ Forall2 (fun blk r => block_record blk = Ok r)
               (snd (split_records lines)) recs
    /\ parse_loop st lines = Ok st_end
    /\ flush (items st_end) (current st_end)
       = items st ++ kept (current st_pre) ++ filter PyDict.truthy recs.
Proof.
  induction lines as [|l lines IH]; intros st Hinv.
  - exists st, [], st. simpl. rewrite flush_kept, app_nil_r. auto.
  - pose proof (split_records_pre lines) as Hpre. simpl.
    destruct (split_records lines) as [pre blocks]. simpl in IH, Hpre.
    destruct (is_record_start l) eqn:Hl.
    + rewrite (parse_line_start st l Hl). simpl.
      set (st1 := {| items := flush (items st) (current st);
                     current := Some (start_record l);
                     in_stack := false |}).
      assert (Hinv1 : stack_inv st1) by (intros [=]).
      destruct (IH st1 Hinv1) as (st_pre & recs & st_end & Hp & Hrecs & Hrun & Hfl).
      destruct (parse_loop_keeps_current pre Hpre st1 st_pre _ eq_refl Hp)
        as [r0 Hr0].
      exists st, (r0 :: recs), st_end. repeat split; auto.
      * constructor; [|assumption].
        unfold block_record. simpl. rewrite (parse_line_start pstate0 l Hl).
        simpl. destruct (parse_loop_frame [] pre Hpre st1 st_pre Hp) as [Hf _].
        unfold with_items in Hf. simpl in Hf. rewrite Hf. simpl.
        now rewrite Hr0.
      * rewrite Hfl. subst st1. simpl. rewrite flush_kept, Hr0, <- app_assoc.
        f_equal. f_equal. simpl. now destruct (PyDict.truthy r0).
    + destruct (parse_line_inv st l Hinv) as (st1 & Hstep & Hinv1).
      rewrite Hstep. simpl.
      destruct (IH st1 Hinv1) as (st_pre & recs & st_end & Hp & Hrecs & Hrun & Hfl).
      exists st_pre, recs, st_end. split; [|split; [|split]]; auto.
      * simpl. now rewrite Hstep.
      * rewrite Hfl. now rewrite (parse_line_items st st1 l Hl Hstep).
Qed.

Lemma parse_lines_blocks (lines : list string) :
  exists recs,
    Forall2 (fun blk r => block_record blk = Ok r) (record_blocks lines) recs
    /\ parse_lines lines = Ok (filter PyDict.truthy recs)
    /\ map (hd EmptyString) (record_blocks lines) = filter is_record_start lines
    /\ length recs = length (filter is_record_start lines).
Proof.
  destruct (parse_loop_blocks lines pstate0 stack_inv0)
    as (st_pre & recs & st_end & Hp & Hrecs & Hrun & Hfl).
  rewrite (parse_loop_no_current _ (split_records_pre lines) pstate0 eq_refl)
    in Hp.
  injection Hp as <-. simpl in Hfl.
  exists recs. repeat split.
  - exact Hrecs.
  - unfold parse_lines. rewrite Hrun. simpl. now rewrite Hfl.
  - apply record_blocks_heads.
  - rewrite <- record_blocks_heads, length_map.
    symmetry. eapply Forall2_length; eauto.
Qed.

(** C1, as amended.  For every document, the blocks of its lines (a
    record-start line with the lines up to the next one) are as many as the
    record-start lines and begin with them in file order; each block builds
    one record on its own; and [parse_projects_yaml] returns these records
    in order, leaving out exactly those that are empty when they are
    flushed. *)
Theorem parse_one_record_per_nonempty_block (text : string) :
  let lines := PyStr.splitlines text in
  exists recs,
    Forall2 (fun blk r => block_record blk = Ok r) (record_blocks lines) recs
    /\ parse_projects_yaml text = Ok (filter PyDict.truthy recs)
    /\ map (hd EmptyString) (record_blocks lines) = filter is_record_start lines
    /\ length recs = length (filter is_record_start lines).
Proof.
  intros lines. exact (parse_lines_blocks lines).
Qed.

(** C1, as stated, fails: a record-start line without a field, followed by
    another record, yields one record for two record-start lines. *)
Lemma parse_drops_empty_record :
  let text := ("- intro" ++ LF ++ "- name: Foo")%string in
  length (filter is_record_start (PyStr.splitlines text)) = 2
  /\ parse_projects_yaml text = Ok [ [("name", VStr "Foo")] ]
  /\ ~ (exists recs, parse_projects_yaml text = Ok recs
                     /\ length recs
                        = length (filter is_record_start (PyStr.splitlines text))).
Proof.
  split; [reflexivity|]. split; [reflexivity|].
  intros (recs & Hp & Hlen). vm_compute in Hp. injection Hp as <-.
  vm_compute in Hlen. discriminate.
Qed.

(** When every record-start line carries a key, no record is empty, and
    the records are as many as the record-start lines. *)
Lemma record_blocks_shape (lines : list string) :
  Forall (fun blk => exists l body,
              blk = l :: body /\ In l lines /\ is_record_start l = true
              /\ Forall (fun l' => is_record_start l' = false) body)
         (record_blocks lines).
Proof.
  unfold record_blocks. induction lines as [|l lines IH]; simpl; [constructor|].
  pose proof (split_records_pre lines) as Hpre.
  destruct (split_records lines) as [pre blocks]. simpl in *.
  assert (Hmono : Forall (fun blk => exists l0 body,
              blk = l0 :: body /\ (l = l0 \/ In l0 lines)
              /\ is_record_start l0 = true
              /\ Forall (fun l' => is_record_start l' = false) body) blocks).
  { eapply Forall_impl; [|exact IH].
    intros blk (l0 & body & -> & Hin & Hs & Hb). eauto 8. }
  destruct (is_record_start l) eqn:Hl; simpl; [|exact Hmono].
  constructor; [|exact Hmono]. eauto 8.
Qed.

Lemma parse_line_keeps_truthy (st st' : pstate) (l : string) (c : record) :
  is_record_start l = false -> current st = Some c -> PyDict.truthy c = true ->
  parse_line st l = Ok st' ->
  exists c', current st' = Some c' /\ PyDict.truthy c' = true.
Proof.
  unfold is_record_start, parse_line. intros -> Hc Ht. rewrite Hc.
  split_ifs; try (intros [= <-]; simpl; eauto).
  - eexists; split; [reflexivity|apply set_truthy].
  - unfold append_at. destruct (PyDict.get _ _) as [[s|lst|d]|]; simpl;
      try discriminate.
    intros [= <-]; simpl. eexists; split; [reflexivity|apply set_truthy].
  - eexists; split; [reflexivity|].
    unfold set_field. destruct (PyStr.split_once _ _). apply set_truthy.
Qed.

Lemma parse_loop_keeps_truthy (body : list string) :
  Forall (fun l => is_record_start l = false) body ->
  forall st st' c, current st = Some c -> PyDict.truthy c = true ->
  parse_loop st body = Ok st' ->
  exists c', current st' = Some c' /\ PyDict.truthy c' = true.
Proof.
  induction 1 as [|l body Hl _ IH]; intros st st' c Hc Ht; simpl.
  - intros [= <-]. eauto.
  - destruct (parse_line st l) as [st1|e] eqn:E; simpl; [|discriminate].
    destruct (parse_line_keeps_truthy _ _ _ _ Hl Hc Ht E) as (c1 & Hc1 & Ht1).
    eauto.
Qed.

Lemma parse_lines_count_when_keyed (lines : list string) :
  Forall (fun l => is_record_start l = true ->
                   PyStr.contains ":" (PyStr.drop 2 (PyStr.rstrip l)) = true)
         lines ->
  exists recs,
    parse_lines lines = Ok recs
    /\ length recs = length (filter is_record_start lines).
Proof.
  intros Hkeyed.
  destruct (parse_lines_blocks lines) as (recs & Hrecs & Hparse & _ & Hlen).
  exists recs. split; [|exact Hlen].
  rewrite Hparse. f_equal.
  pose proof (record_blocks_shape lines) as Hshape.
  clear Hparse Hlen. induction Hrecs as [|blk r blks recs Hb _ IH]; [reflexivity|].
  inversion Hshape as [|? ? (l & body & -> & Hin & Hl & Hbody) Hshape']; subst.
  simpl. rewrite (IH Hshape').
  enough (PyDict.truthy r = true) as -> by reflexivity.
  unfold block_record in Hb. simpl in Hb.
  rewrite (parse_line_start pstate0 l Hl) in Hb. simpl in Hb.
  destruct (parse_loop _ body) as [st'|e] eqn:E; simpl in Hb; [|discriminate].
  injection Hb as <-.
  rewrite Forall_forall in Hkeyed. specialize (Hkeyed l Hin Hl).
  assert (Hstart : PyDict.truthy (start_record l) = true).
  { unfold start_record. rewrite Hkeyed. unfold set_field.
    destruct (PyStr.split_once _ _). apply set_truthy. }
  destruct (parse_loop_keeps_truthy body Hbody
              {| items := []; current := Some (start_record l);
                 in_stack := false |} st' _ eq_refl Hstart E)
    as (c' & -> & Ht).
  exact Ht.
Qed.

(** C6, as amended.  Inside a record, take a line that is not blank, not a
    comment, not a record start, does not begin with the stack opener and
    is not a stack item read while the stack context is open.  The line sets
    a scalar field on the current record and closes the stack context
    exactly when it has at least two leading spaces and contains a colon;
    otherwise it changes nothing.  The field set is the stripped text before
    the first colon, with the quote-stripped text after it. *)
Theorem scalar_field_lines (st : pstate) (cur : record) (raw_line : string) :
  let line := PyStr.rstrip raw_line in
  current st = Some cur ->
  PyStr.truthy line = true ->
  PyStr.startswith "#" (PyStr.lstrip line) = false ->
  is_record_start raw_line = false ->
  PyStr.startswith "  stack:" line = false ->
  in_stack st && is_stack_item raw_line = false ->
  parse_line st raw_line
  = Ok (if (2 <=? leading_spaces line) && PyStr.contains ":" line
        then {| items := items st;
                current := Some (set_field line cur);
                in_stack := false |}
        else st)
  /\ PyDict.get (PyStr.strip (fst (PyStr.split_once ":" line)))
                (set_field line cur)
     = Some (VStr (_strip_quotes (snd (PyStr.split_once ":" line)))).
Proof.
  intros line Hcur Hne Hcomment Hstart Hopen Hitem. subst line. split.
  - unfold parse_line, is_record_start, is_stack_item in *.
    rewrite Hne, Hcomment, Hstart, Hcur, Hopen, Hitem.
    rewrite <- startswith_two_spaces. cbn [negb orb].
    now destruct (PyStr.startswith "  " (PyStr.rstrip raw_line)
                  && PyStr.contains ":" (PyStr.rstrip raw_line)).
  - unfold set_field.
    destruct (PyStr.split_once ":" (PyStr.rstrip raw_line)) as [key value].
    apply get_set_eq.
Qed.

Lemma scalar_field_lines_witness :
  parse_line {| items := []; current := Some [("name", VStr "a")];
                in_stack := false |} "    extra: b  "
  = Ok {| items := [];
          current := Some [("name", VStr "a"); ("extra", VStr "b")];
          in_stack := false |}.
Proof.
  refine (eq_trans
    (proj1 (scalar_field_lines
       {| items := []; current := Some [("name", VStr "a")];
          in_stack := false |}
       [("name", VStr "a")] "    extra: b  "
       eq_refl eq_refl eq_refl eq_refl eq_refl eq_refl)) _).
  reflexivity.
Defined.

(** C6, as stated, fails: a line with four leading spaces that is not a
    stack item sets a scalar field. *)
Lemma four_space_line_sets_field :
  let text := ("- name: a" ++ LF ++ "    extra: b")%string in
  leading_spaces "    extra: b" = 4
  /\ is_stack_item "    extra: b" = false
  /\ parse_projects_yaml text
     = Ok [ [("name", VStr "a"); ("extra", VStr "b")] ].
Proof. repeat split; reflexivity. Qed.

(** *** The stack list *)

Lemma set_get_same {V : Type} (k : string) (v : V) (d : PyDict.dict V) :
  PyDict.get k d = Some v -> PyDict.set k v d = d.
Proof.
  induction d as [|[k' v'] d IH]; simpl; [discriminate|].
  destruct (String.eqb k k') eqn:E.
  - now intros [= ->].
  - intros H. now rewrite IH.
Qed.

Lemma parse_line_stack_item (st : pstate) (cur : record) (l0 : list string)
      (raw_line : string) :
  current st = Some cur -> in_stack st = true ->
  PyDict.get "stack" cur = Some (VList l0) ->
  is_stack_item raw_line = true ->
  parse_line st raw_line
  = Ok {| items := items st;
          current :=
            Some (PyDict.set "stack"
                    (VList (l0 ++ filter PyStr.truthy
                                         [stack_item_value raw_line])) cur);
          in_stack := true |}.
Proof.
  intros Hcur Hin Hget Hitem.
  unfold is_stack_item in Hitem. unfold stack_item_value.
  destruct (startswith_app _ _ Hitem) as [r Hr].
  unfold parse_line. rewrite Hr. cbn -[_strip_quotes filter app].
  rewrite Hcur, Hin. cbn -[_strip_quotes filter app].
  unfold filter.
  destruct (PyStr.truthy (_strip_quotes r)).
  - unfold PyDict.setdefault. rewrite Hget. unfold append_at. rewrite Hget.
    reflexivity.
  - rewrite app_nil_r, (set_get_same _ _ _ Hget).
    destruct st; simpl in *; now subst.
Qed.

Lemma parse_loop_stack_items (item_lines : list string) :
  Forall (fun l => is_stack_item l = true) item_lines ->
  forall st cur l0,
    current st = Some cur -> in_stack st = true ->
    PyDict.get "stack" cur = Some (VList l0) ->
    parse_loop st item_lines
    = Ok {| items := items st;
            current :=
              Some (PyDict.set "stack"
                      (VList (l0 ++ filter PyStr.truthy
                                           (map stack_item_value item_lines)))
                      cur);
            in_stack := true |}.
Proof.
  induction 1 as [|l item_lines Hl _ IH]; intros st cur l0 Hcur Hin Hget.
  - simpl. rewrite app_nil_r, (set_get_same _ _ _ Hget).
    destruct st; simpl in *; now subst.
  - cbn [parse_loop]. rewrite (parse_line_stack_item st cur l0 l Hcur Hin Hget Hl).
    cbn [rbind]. erewrite IH; [|reflexivity|reflexivity|apply get_set_eq].
    cbn [items]. rewrite set_set, <- app_assoc.
    cbn [map filter]. now destruct (PyStr.truthy (stack_item_value l)).
Qed.

Lemma parse_line_leaves_stack (st : pstate) (cur : record) (v : value)
      (raw_line : string) :
  leaves_stack raw_line = true ->
  current st = Some cur -> PyDict.get "stack" cur = Some v ->
  exists st' cur',
    parse_line st raw_line = Ok st' /\ items st' = items st
    /\ current st' = Some cur' /\ PyDict.get "stack" cur' = Some v.
Proof.
  unfold leaves_stack, is_record_start, is_stack_item. intros H Hcur Hget.
  repeat (apply andb_true_iff in H as [H ?]).
  repeat match goal with
         | H : negb _ = true |- _ => apply negb_true_iff in H
         end.
  unfold parse_line.
  match goal with
  | H1 : PyStr.startswith "- " _ = false,
    H2 : PyStr.startswith "  stack:" _ = false,
    H3 : PyStr.startswith "    - " _ = false |- _ =>
      rewrite H1, H2, H3, Hcur, andb_false_r
  end.
  split_ifs; try (exists st, cur; now auto).
  eexists _, _. repeat split; try reflexivity. simpl.
  unfold set_field.
  destruct (PyStr.split_once ":" (PyStr.rstrip raw_line)) as [key val].
  simpl in *. rewrite get_set_ne; [assumption|].
  intros Heq. symmetry in Heq.
  match goal with
  | H : String.eqb _ _ = false |- _ => apply String.eqb_neq in H; contradiction
  end.
Qed.

Lemma parse_loop_leaves_stack (tail : list string) :
  Forall (fun l => leaves_stack l = true) tail ->
  forall st cur v,
    current st = Some cur -> PyDict.get "stack" cur = Some v ->
    exists st' cur',
      parse_loop st tail = Ok st' /\ items st' = items st
      /\ current st' = Some cur' /\ PyDict.get "stack" cur' = Some v.
Proof.
  induction 1 as [|l tail Hl _ IH]; intros st cur v Hcur Hget.
  - exists st, cur. simpl. auto.
  - destruct (parse_line_leaves_stack st cur v l Hl Hcur Hget)
      as (st1 & cur1 & Hstep & Hitems & Hcur1 & Hget1).
    destruct (IH st1 cur1 v Hcur1 Hget1) as (st' & cur' & Hrun & Hi & Hc & Hg).
    exists st', cur'. simpl. rewrite Hstep. simpl.
    repeat split; auto. congruence.
Qed.

Lemma parse_loop_items_prefix (lines : list string) :
  forall st st', parse_loop st lines = Ok st' ->
  exists more, items st' = items st ++ more.
Proof.
  induction lines as [|l lines IH]; intros st st'; simpl.
  - intros [= <-]. exists []. now rewrite app_nil_r.
  - destruct (parse_line st l) as [st1|e] eqn:E; simpl; [|discriminate].
    intros Hrun. destruct (IH _ _ Hrun) as [more Hmore].
    destruct (is_record_start l) eqn:Hl.
    + rewrite (parse_line_start st l Hl) in E. injection E as <-.
      simpl in Hmore. rewrite flush_kept, <- app_assoc in Hmore. eauto.
    + rewrite (parse_line_items st st1 l Hl E) in Hmore. eauto.
Qed.

Lemma parse_line_stack_opener (st : pstate) (cur : record) (raw_line : string) :
  current st = Some cur ->
  PyStr.startswith "  stack:" (PyStr.rstrip raw_line) = true ->
  parse_line st raw_line
  = Ok {| items := items st;
          current := Some (PyDict.set "stack" (VList []) cur);
          in_stack := true |}.
Proof.
  intros Hcur Hopen. destruct (startswith_app _ _ Hopen) as [r Hr].
  unfold parse_line. rewrite Hr. cbn. now rewrite Hcur.
Qed.

Lemma get_some_truthy {V : Type} (k : string) (v : V) (d : PyDict.dict V) :
  PyDict.get k d = Some v -> PyDict.truthy d = true.
Proof. destruct d; [discriminate|reflexivity]. Qed.

(** C9, as amended.  Let the reader hold a current record after the lines
    [pre].  A stack opener followed by stack-item lines, by further lines
    of the record that leave the key [stack] alone, and then by the end of
    the input or by the next record start, gives that record, in its place
    in the output, a [stack] list holding the quote-stripped values of the
    item lines in file order, the empty ones left out. *)
Theorem stack_block_collected (pre : list string) (st : pstate) (cur : record)
        (stack_line : string) (item_lines tail post : list string) :
  parse_loop pstate0 pre = Ok st ->
  current st = Some cur ->
  PyStr.startswith "  stack:" (PyStr.rstrip stack_line) = true ->
  Forall (fun l => is_stack_item l = true) item_lines ->
  Forall (fun l => leaves_stack l = true) tail ->
  match post with [] => True | l :: _ => is_record_start l = true end ->
  let vals := filter PyStr.truthy (map stack_item_value item_lines) in
  exists rec out,
    parse_lines (pre ++ stack_line :: item_lines ++ tail ++ post)
    = Ok (items st ++ rec :: out)
    /\ PyDict.get "stack" rec = Some (VList vals)
    /\ (tail = [] -> rec = PyDict.set "stack" (VList vals) cur).
Proof.
  intros Hpre Hcur Hopen Hitems Htail Hpost vals.
  set (st1 := {| items := items st;
                 current := Some (PyDict.set "stack" (VList []) cur);
                 in_stack := true |}).
  pose proof (parse_loop_stack_items item_lines Hitems st1 _ []
                eq_refl eq_refl (get_set_eq _ _ _)) as Hrun2.
  cbn [items st1 app] in Hrun2. rewrite set_set in Hrun2. fold vals in Hrun2.
  set (st2 := {| items := items st;
                 current := Some (PyDict.set "stack" (VList vals) cur);
                 in_stack := true |}) in Hrun2.
  destruct (parse_loop_leaves_stack tail Htail st2 _ (VList vals)
              eq_refl (get_set_eq _ _ _))
    as (st3 & cur3 & Hrun3 & Hitems3 & Hcur3 & Hget3).
  cbn [items st2] in Hitems3.
  assert (Hprefix : parse_loop pstate0 (pre ++ stack_line :: item_lines ++ tail)
                    = Ok st3).
  { rewrite parse_loop_app, Hpre. cbn [rbind parse_loop].
    rewrite (parse_line_stack_opener st cur stack_line Hcur Hopen).
    cbn [rbind]. fold st1. rewrite parse_loop_app, Hrun2. exact Hrun3. }
  assert (Hrec3 : tail = [] -> cur3 = PyDict.set "stack" (VList vals) cur).
  { intros ->. simpl in Hrun3. injection Hrun3 as <-. simpl in Hcur3.
    congruence. }
  assert (Hkeep : flush (items st3) (current st3) = items st ++ [cur3]).
  { rewrite Hcur3, Hitems3. simpl.
    now rewrite (get_some_truthy _ _ _ Hget3). }
  exists cur3.
  replace (pre ++ stack_line :: item_lines ++ tail ++ post)
    with ((pre ++ stack_line :: item_lines ++ tail) ++ post)
    by (rewrite <- !app_assoc; simpl; now rewrite <- app_assoc).
  unfold parse_lines. rewrite parse_loop_app, Hprefix. cbn [rbind].
  destruct post as [|l post].
  - exists []. simpl. rewrite Hkeep. auto.
  - cbn [parse_loop]. rewrite (parse_line_start st3 l Hpost). cbn [rbind].
    rewrite Hkeep.
    set (st4 := {| items := items st ++ [cur3];
                   current := Some (start_record l);
                   in_stack := false |}).
    assert (Hinv4 : stack_inv st4) by (intros [=]).
    destruct (parse_loop_inv post st4 Hinv4) as (st_end & Hrun & _).
    destruct (parse_loop_items_prefix post st4 st_end Hrun) as [more Hmore].
    rewrite Hrun. cbn [rbind]. rewrite flush_kept, Hmore.
    exists (more ++ kept (current st_end)). cbn [items st4].
    rewrite <- !app_assoc. simpl. auto.
Qed.

Lemma stack_block_collected_witness :
  exists rec out,
    parse_lines (["# projects"; "- name: Foo"]
                 ++ "  stack:  "
                 :: ["    - Rust"; "    - 'Rocq'"]
                 ++ ["  description: A thing"]
                 ++ ["- name: Bar"])
    = Ok ([] ++ rec :: out)
    /\ PyDict.get "stack" rec = Some (VList ["Rust"; "Rocq"])
    /\ (["  description: A thing"] = [] ->
        rec = PyDict.set "stack" (VList ["Rust"; "Rocq"]) [("name", VStr "Foo")]).
Proof.
  apply (stack_block_collected
           ["# projects"; "- name: Foo"]
           {| items := []; current := Some [("name", VStr "Foo")];
              in_stack := false |}
           [("name", VStr "Foo")]
           "  stack:  "
           ["    - Rust"; "    - 'Rocq'"]
           ["  description: A thing"]
           ["- name: Bar"]).
  - reflexivity.
  - reflexivity.
  - reflexivity.
  - repeat constructor.
  - repeat constructor.
  - reflexivity.
Defined.

(** C9, as stated, fails: an item line whose quote-stripped value is
    empty adds nothing to the list. *)
Lemma empty_stack_item_skipped :
  let item_lines := ["    - ''"; "    - b"] in
  let text :=
    ("- name: p" ++ LF ++ "  stack:" ++ LF ++ "    - ''" ++ LF ++ "    - b")%string
  in
  Forall (fun l => is_stack_item l = true) item_lines
  /\ map stack_item_value item_lines = [EmptyString; "b"]
  /\ parse_projects_yaml text
     = Ok [ [("name", VStr "p"); ("stack", VList ["b"])] ].
Proof.
  repeat split; try reflexivity. repeat constructor.
Qed.

(** ** The HTML metadata extractor *)

Lemma attr_value_truthy (name : string) (attrs : list (string * option string))
      (v : string) :
  attr_value name attrs = Some v -> PyStr.truthy v = true.
Proof.
  induction attrs as [|[k [v'|]] attrs IH]; simpl; [discriminate| |].
  - destruct (attr_value name attrs); [exact IH|].
    destruct (PyStr.truthy k); simpl; [|discriminate].
    destruct (PyStr.truthy v') eqn:Hv; simpl; [|discriminate].
    destruct (String.eqb _ _); [|discriminate].
    now intros [= <-].
  - destruct (attr_value name attrs); [exact IH|discriminate].
Qed.

(** The dictionary built from the attributes answers with the last
    usable attribute of each name. *)
Lemma attrs_dict_get (name : string) (attrs : list (string * option string)) :
  PyDict.get name (attrs_dict attrs) = attr_value name attrs.
Proof.
  unfold attrs_dict.
  enough (forall acc,
             PyDict.get name
               (fold_left
                  (fun d kv =>
                     match kv with
                     | (k, Some v) =>
                         if PyStr.truthy k && PyStr.truthy v
                         then PyDict.set (PyStr.lower k) v d else d
                     | (_, None) => d
                     end) attrs acc)
             = match attr_value name attrs with
               | Some x => Some x
               | None => PyDict.get name acc
               end) as H.
  { rewrite H. now destruct (attr_value name attrs). }
  induction attrs as [|[k [v|]] attrs IH]; intros acc; simpl; [reflexivity| |].
  - rewrite IH. destruct (attr_value name attrs); [reflexivity|].
    destruct (PyStr.truthy k && PyStr.truthy v); simpl; [|reflexivity].
    destruct (String.eqb_spec (PyStr.lower k) name) as [->|Hne].
    + apply get_set_eq.
    + apply get_set_ne. congruence.
  - rewrite IH. now destruct (attr_value name attrs).
Qed.

(** C5, as amended.  On a [meta] start tag the key is the [property]
    attribute when it is present with a non-empty value, else the [name]
    attribute; an entry is stored exactly when the key and the [content]
    attribute are present and non-empty as written, before any trimming.
    The entry stored maps the lower-cased trimmed key to the trimmed
    content and replaces an earlier entry of that key; the title state is
    left alone. *)
Theorem handle_starttag_meta (self : MetaParser) (tag : string)
        (attrs : list (string * option string)) :
  PyStr.lower tag = "meta" ->
  let key := match attr_value "property" attrs with
             | Some k => Some k
             | None => attr_value "name" attrs
             end in
  let content := attr_value "content" attrs in
  let self' := handle_starttag self tag attrs in
  meta self' = match key, content with
               | Some k, Some c =>
                   PyDict.set (PyStr.lower (PyStr.strip k)) (PyStr.strip c)
                              (meta self)
               | _, _ => meta self
               end
  /\ (forall k c, key = Some k -> content = Some c ->
      PyStr.truthy k = true /\ PyStr.truthy c = true
      /\ PyDict.get (PyStr.lower (PyStr.strip k)) (meta self')
         = Some (PyStr.strip c))
  /\ title self' = title self
  /\ _in_title self' = _in_title self.
Proof.
  intros Htag key content self'.
  assert (Hkey : forall k, key = Some k -> PyStr.truthy k = true).
  { subst key. intros k. destruct (attr_value "property" attrs) eqn:E.
    - intros [= <-]. eapply attr_value_truthy; eauto.
    - apply attr_value_truthy. }
  assert (Hcontent : forall c, content = Some c -> PyStr.truthy c = true).
  { intros c. apply attr_value_truthy. }
  assert (Hor : or_opt (PyDict.get "property" (attrs_dict attrs))
                       (PyDict.get "name" (attrs_dict attrs)) = key).
  { rewrite !attrs_dict_get. subst key. unfold or_opt, truthy_opt.
    destruct (attr_value "property" attrs) eqn:E; [|reflexivity].
    now rewrite (attr_value_truthy _ _ _ E). }
  assert (Hself : self' = match key, content with
                          | Some k, Some c =>
                              {| meta := PyDict.set (PyStr.lower (PyStr.strip k))
                                                    (PyStr.strip c) (meta self);
                                 title := title self;
                                 _in_title := _in_title self |}
                          | _, _ => self
                          end).
  { subst self'. unfold handle_starttag. rewrite Htag. cbn [String.eqb].
    change (String.eqb "meta" "meta") with true. cbv iota.
    rewrite Hor, attrs_dict_get. fold content.
    destruct key as [k|]; [|reflexivity].
    destruct content as [c|]; [|reflexivity].
    now rewrite (Hkey k eq_refl), (Hcontent c eq_refl). }
  rewrite Hself. clear Hself Hor.
  destruct key as [k|], content as [c|];
    (split; [reflexivity|split; [|split; reflexivity]]);
    intros k' c' Hk' Hc'; try discriminate.
  injection Hk' as <-. injection Hc' as <-.
  repeat split; auto. apply get_set_eq.
Qed.

Lemma handle_starttag_meta_witness :
  meta (handle_starttag MetaParser0 "META"
          [("name", Some "x"); ("property", Some "OG:Title ");
           ("content", Some " Hi ")])
  = [("og:title", "Hi")].
Proof.
  refine (eq_trans
    (proj1 (handle_starttag_meta MetaParser0 "META"
              [("name", Some "x"); ("property", Some "OG:Title ");
               ("content", Some " Hi ")] eq_refl)) _).
  reflexivity.
Defined.

(** C5, as stated, fails: a [content] of spaces only is empty after
    trimming, and yet an entry is stored, with an empty value. *)
Lemma whitespace_content_stored :
  let attrs := [("name", Some "description"); ("content", Some "   ")] in
  PyStr.strip "   " = EmptyString
  /\ meta (handle_starttag MetaParser0 "meta" attrs)
     = [("description", EmptyString)].
Proof. split; reflexivity. Qed.

(** ** The card builder *)

Ltac split_truthy :=
  repeat match goal with
         | |- context [PyStr.truthy ?s] =>
             let E := fresh "E" in
             destruct (PyStr.truthy s) eqn:E; simpl; rewrite ?E
         end;
  try reflexivity; try congruence.

Section CardBuilder.
Context {R : Runtime}.
Implicit Types (url title_fallback desc_fallback : string).
Implicit Types (meta : PyDict.dict string).

Lemma or_first_nonempty2 (a b : option string) (fallback : string) :
  or_str (or_opt a b) fallback = first_nonempty [a; b] fallback.
Proof.
  unfold or_opt, or_str, truthy_opt.
  destruct a as [x|], b as [y|]; simpl; split_truthy.
Qed.

Lemma or_first_nonempty3 (a b c : option string) (fallback : string) :
  or_str (or_opt (or_opt a b) c) fallback = first_nonempty [a; b; c] fallback.
Proof.
  unfold or_opt, or_str, truthy_opt.
  destruct a as [x|], b as [y|], c as [z|]; simpl; split_truthy.
Qed.

(** The fields of a built card, by the precedence rules. *)
Lemma build_card_fields url meta title_fallback desc_fallback :
  let image :=
    first_nonempty [PyDict.get "twitter:image" meta; PyDict.get "og:image" meta]
                   EmptyString in
  let image := if PyStr.truthy image then urljoin url image else EmptyString in
  build_card url meta title_fallback desc_fallback
  = [("type",
      first_nonempty [PyDict.get "twitter:card" meta]
        (if PyStr.truthy image then "summary_large_image" else "summary"));
     ("title",
      first_nonempty [PyDict.get "twitter:title" meta; PyDict.get "og:title" meta]
                     title_fallback);
     ("description",
      first_nonempty [PyDict.get "twitter:description" meta;
                      PyDict.get "og:description" meta;
                      PyDict.get "description" meta] desc_fallback);
     ("image", image);
     ("site", first_nonempty [PyDict.get "twitter:site" meta] EmptyString)].
Proof.
  unfold build_card, resolve_url.
  rewrite or_first_nonempty3, !or_first_nonempty2.
  set (cand := first_nonempty [PyDict.get "twitter:image" meta;
                               PyDict.get "og:image" meta] EmptyString).
  cbn zeta.
  assert (Himage : (if PyStr.truthy cand then urljoin url cand else cand)
                   = (if PyStr.truthy cand then urljoin url cand else EmptyString)).
  { destruct cand; reflexivity. }
  rewrite Himage.
  repeat f_equal.
  unfold truthy_opt, or_str. simpl.
  destruct (PyDict.get "twitter:card" meta) as [t|]; [|reflexivity].
  now destruct (PyStr.truthy t).
Qed.

End CardBuilder.

(** C4.  The title of a built card is the first non-empty value among
    [twitter:title] and [og:title], else the title fallback; with
    [twitter:title] A and [og:title] B it is A. *)
Theorem build_card_title (R : Runtime) (url : string)
        (meta : PyDict.dict string) (title_fallback desc_fallback : string) :
  PyDict.get "title" (build_card url meta title_fallback desc_fallback)
  = Some (first_nonempty
            [PyDict.get "twitter:title" meta; PyDict.get "og:title" meta]
            title_fallback)
  /\ PyDict.get "title"
       (build_card url [("twitter:title", "A"); ("og:title", "B")]
                   title_fallback desc_fallback)
     = Some "A".
Proof.
  split; rewrite build_card_fields; reflexivity.
Qed.

(** C8.  The image of a built card is empty when neither [twitter:image]
    nor [og:image] has a non-empty value; otherwise it is the first such
    value joined to the source URL by the library's URL join.  Where that
    join agrees with the one of [UrlLib], a map holding only [og:image]
    /img.png and the source https://example.com/page give
    https://example.com/img.png. *)
Theorem build_card_image (R : Runtime) (url : string)
        (meta : PyDict.dict string) (title_fallback desc_fallback : string) :
  let image :=
    first_nonempty [PyDict.get "twitter:image" meta; PyDict.get "og:image" meta]
                   EmptyString in
  PyDict.get "image" (build_card url meta title_fallback desc_fallback)
  = Some (if PyStr.truthy image then resolve_url url image else EmptyString)
  /\ (urljoin "https://example.com/page" "/img.png"
      = UrlLib.urljoin "https://example.com/page" "/img.png" ->
      PyDict.get "image"
        (build_card "https://example.com/page" [("og:image", "/img.png")]
                    title_fallback desc_fallback)
      = Some "https://example.com/img.png").
Proof.
  split.
  - rewrite build_card_fields. reflexivity.
  - intros Hjoin. rewrite build_card_fields. cbn. rewrite Hjoin. reflexivity.
Qed.

Lemma build_card_image_witness :
  PyDict.get "image"
    (@build_card scripted "https://example.com/page" [("og:image", "/img.png")]
                 "Proj" "Desc")
  = Some "https://example.com/img.png".
Proof.
  exact (proj2 (build_card_image scripted "https://example.com/page" []
                                 "Proj" "Desc")
               eq_refl).
Defined.

(** ** The driver *)

Section Driver.
Context {R : Runtime}.

Lemma field_missing (k : string) (project : record) :
  PyDict.get k project = None -> field k project = EmptyString.
Proof. unfold field. now intros ->. Qed.


(** One turn of the loop of [main]. *)
Lemma enrich_cons (project : record) (rest : list record) (s : io) :
  enrich (project :: rest) s
  = match project_card project s with
    | (Ok card, s1) =>
        match enrich rest s1 with
        | (Ok enriched, s2) => (Ok (enriched_item project card :: enriched), s2)
        | (Raise e, s2) => (Raise e, s2)
        end
    | (Raise e, s1) => (Raise e, s1)
    end.
Proof.
  cbn [enrich]. unfold bind, ret.
  destruct (project_card project s) as [[card|e] s1]; [|reflexivity].
  destruct (enrich rest s1) as [[enriched|e] s2]; reflexivity.
Qed.

Lemma project_card_no_url (project : record) (s : io) :
  field "url" project = EmptyString ->
  project_card project s
  = (Ok (fallback_card (field "name" project) (field "description" project)), s).
Proof. unfold project_card. now intros ->. Qed.

Lemma project_card_fetch_raises (project : record) (s s' : io) (exc : exn) :
  PyStr.truthy (field "url" project) = true ->
  fetch_html (field "url" project) s = (Raise exc, s') ->
  project_card project s
  = if caught exc
    then (Ok (PyDict.set "error" ("fetch_failed: " ++ exn_str exc)%string
                (fallback_card (field "name" project)
                               (field "description" project))), s')
    else (Raise exc, s').
Proof.
  intros Hurl Hfetch. unfold project_card. rewrite Hurl.
  unfold try_except, bind. rewrite Hfetch. reflexivity.
Qed.

Lemma enrich_inv (projects enriched : list record) (s s' : io) :
  enrich projects s = (Ok enriched, s') ->
  Forall2 (fun project item =>
             exists card s1 s2,
               project_card project s1 = (Ok card, s2)
               /\ item = enriched_item project card)
          projects enriched.
Proof.
  revert enriched s; induction projects as [|p rest IH]; intros enriched s.
  - cbn. unfold ret. intros [= <- <-]. constructor.
  - rewrite enrich_cons.
    destruct (project_card p s) as [[card|e] s1] eqn:Hcard; [|discriminate].
    destruct (enrich rest s1) as [[items|e] s2] eqn:Hrest; [|discriminate].
    intros [= <- <-]. constructor; eauto 6.
Qed.

End Driver.

(** C3.  A project whose [url], read with the empty default and trimmed,
    is empty gets the pure fallback card, which has no [error] field; the
    state of the driver, with its list of requests sent, is unchanged, so no
    request is made; and the loop goes on with the other projects from that
    same state. *)
Theorem no_url_no_fetch (R : Runtime) (project : record) (rest : list record)
        (s : io) :
  field "url" project = EmptyString ->
  let card :=
    [("type", EmptyString);
     ("title", field "name" project);
     ("description", field "description" project);
     ("image", EmptyString);
     ("site", EmptyString)] in
  project_card project s = (Ok card, s)
  /\ PyDict.get "error" card = None
  /\ enrich (project :: rest) s
     = match enrich rest s with
       | (Ok enriched, s') => (Ok (enriched_item project card :: enriched), s')
       | (Raise e, s') => (Raise e, s')
       end.
Proof.
  intros Hurl card.
  pose proof (project_card_no_url project s Hurl) as Hcard.
  repeat split; [exact Hcard|].
  rewrite enrich_cons, Hcard. reflexivity.
Qed.

Lemma no_url_no_fetch_witness :
  @enrich scripted
    [ [("name", VStr " Foo "); ("url", VStr "  ")]; [("description", VStr "d")] ]
    (scripted_io [] [])
  = (Ok [ [("name", VStr " Foo "); ("url", VStr "  ");
           ("card", VDict [("type", EmptyString); ("title", "Foo");
                           ("description", EmptyString);
                           ("image", EmptyString); ("site", EmptyString)])];
          [("description", VStr "d");
           ("card", VDict [("type", EmptyString); ("title", EmptyString);
                           ("description", "d");
                           ("image", EmptyString); ("site", EmptyString)])] ],
     (scripted_io [] [])).
Proof.
  refine (eq_trans
    (proj2 (proj2 (no_url_no_fetch scripted
       [("name", VStr " Foo "); ("url", VStr "  ")]
       [ [("description", VStr "d")] ]
       (scripted_io [] []) eq_refl))) _).
  reflexivity.
Defined.

(** C2, as amended.  Let a project have a non-empty [url] and let the fetch
    raise.  If the exception is a [URLError], an [HTTPError] or a
    [TimeoutError], the card is the fallback card (empty type, image and
    site, the trimmed name as title and the trimmed description) with an
    added [error] field made of the text of the exception, and the loop goes
    on with the next project.  An exception of any other class is not
    handled: it ends the loop. *)
Theorem fetch_failure_recorded (R : Runtime) (project : record)
        (rest : list record) (s s' : io) (exc : exn) :
  PyStr.truthy (field "url" project) = true ->
  fetch_html (field "url" project) s = (Raise exc, s') ->
  let card :=
    [("type", EmptyString);
     ("title", field "name" project);
     ("description", field "description" project);
     ("image", EmptyString);
     ("site", EmptyString);
     ("error", ("fetch_failed: " ++ exn_str exc)%string)] in
  (caught exc = true ->
   project_card project s = (Ok card, s')
   /\ enrich (project :: rest) s
      = match enrich rest s' with
        | (Ok enriched, s2) => (Ok (enriched_item project card :: enriched), s2)
        | (Raise e, s2) => (Raise e, s2)
        end)
  /\ (caught exc = false -> enrich (project :: rest) s = (Raise exc, s')).
Proof.
  intros Hurl Hfetch card.
  pose proof (project_card_fetch_raises project s s' exc Hurl Hfetch) as Hcard.
  split; intros Hc; rewrite Hc in Hcard.
  - split; [exact Hcard|]. rewrite enrich_cons, Hcard. reflexivity.
  - rewrite enrich_cons, Hcard. reflexivity.
Qed.

Lemma fetch_failure_recorded_witness :
  @enrich scripted
    [ [("name", VStr "X"); ("url", VStr "https://x.test")];
      [("name", VStr "Y")] ]
    (scripted_io [Raise (mkExn TimeoutError "timed out")] [])
  = (Ok [ [("name", VStr "X"); ("url", VStr "https://x.test");
           ("card", VDict [("type", EmptyString); ("title", "X");
                           ("description", EmptyString);
                           ("image", EmptyString); ("site", EmptyString);
                           ("error", "fetch_failed: timed out")])];
          [("name", VStr "Y");
           ("card", VDict [("type", EmptyString); ("title", "Y");
                           ("description", EmptyString);
                           ("image", EmptyString); ("site", EmptyString)])] ],
     scripted_io []
       [ {| req_url := "https://x.test";
            req_headers :=
              [("User-Agent",
                "Mozilla/5.0 (compatible; ProjectMetaFetcher/1.0)");
               ("Accept", "text/html,application/xhtml+xml")];
            req_timeout := 15 |} ]).
Proof.
  refine (eq_trans
    (proj2 (proj1 (fetch_failure_recorded scripted
       [("name", VStr "X"); ("url", VStr "https://x.test")]
       [ [("name", VStr "Y")] ]
       (scripted_io [Raise (mkExn TimeoutError "timed out")] [])
       _ (mkExn TimeoutError "timed out") eq_refl eq_refl) eq_refl)) _).
  reflexivity.
Defined.

(** C2, as stated, fails: an exception outside the three classes of the
    handler ends the batch, and the next project is never reached.  The
    library raises such exceptions for a URL without a scheme, before any
    connection is made, and for a connection that the server closes without
    a response. *)
Lemma uncaught_failure_ends_batch :
  let bad_url := mkExn (OtherError "ValueError") "unknown url type: 'foo'" in
  let dropped :=
    mkExn (OtherError "RemoteDisconnected")
          "Remote end closed connection without response" in
  caught bad_url = false
  /\ fst (@enrich scripted
            [ [("name", VStr "A"); ("url", VStr "foo")];
              [("name", VStr "B")] ]
            (scripted_io [Raise bad_url] []))
     = Raise bad_url
  /\ caught dropped = false
  /\ fst (@enrich scripted
            [ [("name", VStr "A"); ("url", VStr "https://a.test")];
              [("name", VStr "B")] ]
            (scripted_io [Raise dropped] []))
     = Raise dropped.
Proof. repeat split; reflexivity. Qed.

(** C10.  When the loop of [main] returns, the output records match the
    projects one to one and in order.  Each output record holds the card
    computed for its project under [card] and, under every other key, what
    the project holds there; its keys are those of the project, with [card]
    added last when the project had none.  A [card] field of the project is
    thus replaced. *)
Theorem enriched_keeps_fields (R : Runtime) (projects enriched : list record)
        (s s' : io) :
  enrich projects s = (Ok enriched, s') ->
  Forall2 (fun project item =>
             exists card s1 s2,
               project_card project s1 = (Ok card, s2)
               /\ PyDict.get "card" item = Some (VDict card)
               /\ (forall k, k <> "card" ->
                   PyDict.get k item = PyDict.get k project)
               /\ PyDict.keys item
                  = match PyDict.get "card" project with
                    | Some _ => PyDict.keys project
                    | None => PyDict.keys project ++ ["card"]
                    end)
          projects enriched.
Proof.
  intros Hrun. eapply Forall2_impl; [|exact (enrich_inv _ _ _ _ Hrun)].
  intros project item (card & s1 & s2 & Hcard & ->).
  exists card, s1, s2. unfold enriched_item. repeat split.
  - exact Hcard.
  - apply get_set_eq.
  - intros k Hk. now apply get_set_ne.
  - destruct (PyDict.get "card" project) eqn:E.
    + eapply keys_set_present; eauto.
    + now apply keys_set_absent.
Qed.

Lemma enriched_keeps_fields_witness :
  Forall2 (fun project item =>
             exists card s1 s2,
               @project_card scripted project s1 = (Ok card, s2)
               /\ PyDict.get "card" item = Some (VDict card)
               /\ (forall k, k <> "card" ->
                   PyDict.get k item = PyDict.get k project)
               /\ PyDict.keys item
                  = match PyDict.get "card" project with
                    | Some _ => PyDict.keys project
                    | None => PyDict.keys project ++ ["card"]
                    end)
          [ [("card", VStr "old"); ("name", VStr "A")] ]
          [ [("card", VDict [("type", EmptyString); ("title", "A");
                             ("description", EmptyString);
                             ("image", EmptyString); ("site", EmptyString)]);
             ("name", VStr "A")] ].
Proof.
  exact (enriched_keeps_fields scripted
           [ [("card", VStr "old"); ("name", VStr "A")] ] _
           (scripted_io [] []) (scripted_io [] []) eq_refl).
Defined.

(** ** Worked examples *)

Example parse_two_projects :
  parse_projects_yaml
    ("# projects" ++ LF ++
     "- name: " ++ DQ ++ "Foo" ++ DQ ++ LF ++
     "  url: https://foo.example  " ++ LF ++
     "  stack:" ++ LF ++
     "    - Rust" ++ LF ++
     "    - 'Rocq'" ++ LF ++
     "  description: A thing" ++ LF ++ LF ++
     "- name: Bar" ++ LF)
  = Ok [ [("name", VStr "Foo"); ("url", VStr "https://foo.example");
          ("stack", VList ["Rust"; "Rocq"]); ("description", VStr "A thing")];
         [("name", VStr "Bar")] ].
Proof. vm_compute. reflexivity. Qed.

Example strip_quotes_examples :
  _strip_quotes (DQ ++ "Foo" ++ DQ) = "Foo"
  /\ _strip_quotes "'Bar'" = "Bar"
  /\ _strip_quotes "  plain " = "plain".
Proof. repeat split; reflexivity. Qed.

Example title_is_collected :
  let p := fold_left handle_event
             [StartTag "meta" [("property", Some "og:title");
                               ("content", Some "Hi")];
              StartTag "title" []; Data "ignored"; EndTag "title";
              Data "after"]
             MetaParser0 in
  meta p = [("og:title", "Hi")] /\ title p = "ignored".
Proof. split; reflexivity. Qed.

(** * Further properties *)

Arguments PyStr.isspace !c.
Arguments PyStr.lower_char !c.

(** ** Stripping *)

Lemma rstrip_idem (s : string) : PyStr.rstrip (PyStr.rstrip s) = PyStr.rstrip s.
Proof.
  induction s as [|c s IH]; [reflexivity|].
  cbn [PyStr.rstrip]. destruct (PyStr.rstrip s) as [|a r] eqn:E.
  - destruct (PyStr.isspace c) eqn:Ec; [reflexivity|].
    cbn [PyStr.rstrip]. now rewrite Ec.
  - cbn [PyStr.rstrip] in *. now rewrite IH.
Qed.

Lemma lstrip_idem (s : string) : PyStr.lstrip (PyStr.lstrip s) = PyStr.lstrip s.
Proof.
  induction s as [|c s IH]; [reflexivity|].
  cbn [PyStr.lstrip]. destruct (PyStr.isspace c) eqn:Ec; [exact IH|].
  cbn [PyStr.lstrip]. now rewrite Ec.
Qed.

(** A right-stripped string stays right-stripped when it is left-stripped. *)
Lemma rstrip_lstrip_fixed (s : string) :
  PyStr.rstrip s = s -> PyStr.rstrip (PyStr.lstrip s) = PyStr.lstrip s.
Proof.
  induction s as [|c s IH]; [reflexivity|].
  cbn [PyStr.rstrip PyStr.lstrip]. intros H.
  destruct (PyStr.isspace c) eqn:Ec.
  - apply IH. destruct (PyStr.rstrip s) as [|a r] eqn:E; [discriminate|].
    now injection H.
  - cbn [PyStr.rstrip]. now rewrite Ec.
Qed.

Lemma strip_idem (s : string) : PyStr.strip (PyStr.strip s) = PyStr.strip s.
Proof.
  unfold PyStr.strip.
  rewrite (rstrip_lstrip_fixed _ (rstrip_idem s)). apply lstrip_idem.
Qed.

Lemma strip_rstrip (s : string) : PyStr.strip (PyStr.rstrip s) = PyStr.strip s.
Proof. unfold PyStr.strip. now rewrite rstrip_idem. Qed.

(** A string ending in a character that is no space is its own right
    strip, whatever comes before. *)
Lemma rstrip_snoc (p : string) (c : ascii) :
  PyStr.isspace c = false ->
  PyStr.rstrip (p ++ String c EmptyString)%string
  = (p ++ String c EmptyString)%string.
Proof.
  intros Hc. induction p as [|a p IH]; cbn [append PyStr.rstrip].
  - now rewrite Hc.
  - rewrite IH. now destruct p.
Qed.

(** Right-stripping reaches only what follows the last character that is
    no space. *)
Lemma rstrip_app_snoc (p : string) (c : ascii) (v : string) :
  PyStr.isspace c = false ->
  PyStr.rstrip (p ++ String c v)%string
  = (p ++ String c (PyStr.rstrip v))%string.
Proof.
  intros Hc. induction p as [|a p IH]; cbn [append PyStr.rstrip].
  - destruct (PyStr.rstrip v); [now rewrite Hc|reflexivity].
  - rewrite IH. now destruct p.
Qed.

Lemma lstrip_blank_app (pad s : string) :
  PyStr.rstrip pad = EmptyString ->
  PyStr.lstrip (pad ++ s)%string = PyStr.lstrip s.
Proof.
  induction pad as [|c pad IH]; [reflexivity|].
  cbn [PyStr.rstrip append PyStr.lstrip].
  destruct (PyStr.rstrip pad) eqn:E; [|discriminate].
  destruct (PyStr.isspace c); [auto|discriminate].
Qed.

Lemma rstrip_app_blank (s pad : string) :
  PyStr.rstrip pad = EmptyString ->
  PyStr.rstrip (s ++ pad)%string = PyStr.rstrip s.
Proof.
  intros Hpad. induction s as [|c s IH]; cbn [append PyStr.rstrip].
  - exact Hpad.
  - now rewrite IH.
Qed.

(** ** The reader on whole documents *)

Lemma parse_never_raises_lines (lines : list string) :
  exists recs, parse_lines lines = Ok recs.
Proof.
  unfold parse_lines.
  destruct (parse_loop_inv lines pstate0 stack_inv0) as (st & -> & _).
  simpl. eauto.
Qed.

(** X1.  The reader returns a list of records for every text: the
    append to the [stack] list, the one step that could raise, always finds
    a list there. *)
Theorem parse_never_raises (text : string) :
  exists recs, parse_projects_yaml text = Ok recs.
Proof.
  unfold parse_projects_yaml, parse_lines.
  destruct (parse_loop_inv (PyStr.splitlines text) pstate0 stack_inv0)
    as (st & -> & _).
  simpl. eauto.
Qed.

Lemma parse_line_skipped (st : pstate) (l : string) :
  is_skipped l = true -> parse_line st l = Ok st.
Proof. unfold is_skipped, parse_line. now intros ->. Qed.

Lemma parse_loop_skip (lines : list string) :
  forall st,
    parse_loop st (filter (fun l => negb (is_skipped l)) lines)
    = parse_loop st lines.
Proof.
  induction lines as [|l lines IH]; intros st; [reflexivity|].
  cbn [filter parse_loop]. destruct (is_skipped l) eqn:E; cbn [negb].
  - rewrite (parse_line_skipped st l E). cbn [rbind]. apply IH.
  - cbn [parse_loop]. destruct (parse_line st l); cbn [rbind]; auto.
Qed.

(** X2.  Blank lines and comment lines have no effect, wherever they
    stand: removing them from a document leaves the result unchanged. *)
Theorem parse_ignores_skipped_lines (lines : list string) :
  parse_lines (filter (fun l => negb (is_skipped l)) lines) = parse_lines lines.
Proof. unfold parse_lines. now rewrite parse_loop_skip. Qed.

Lemma parse_line_rstrip (st : pstate) (l : string) :
  parse_line st (PyStr.rstrip l) = parse_line st l.
Proof. unfold parse_line. now rewrite rstrip_idem. Qed.

(** X3.  Trailing whitespace never matters: right-stripping every line
    of a document leaves the result unchanged. *)
Theorem parse_ignores_trailing_whitespace (lines : list string) :
  parse_lines (map PyStr.rstrip lines) = parse_lines lines.
Proof.
  unfold parse_lines. f_equal.
  generalize pstate0. induction lines as [|l lines IH]; intros st;
    [reflexivity|].
  cbn [map parse_loop]. rewrite parse_line_rstrip.
  destruct (parse_line st l); cbn [rbind]; auto.
Qed.

(** X4.  Lines before the first record start are ignored: a document
    gives the same result without them, and a document without any record
    start gives no record. *)
Theorem parse_ignores_preamble (pre rest : list string) :
  Forall (fun l => is_record_start l = false) pre ->
  parse_lines (pre ++ rest) = parse_lines rest
  /\ parse_lines pre = Ok [].
Proof.
  intros Hpre. unfold parse_lines.
  rewrite parse_loop_app, (parse_loop_no_current pre Hpre pstate0 eq_refl).
  split; reflexivity.
Qed.

Lemma parse_ignores_preamble_witness :
  parse_lines (["name: early"; "  url: https://x.test"; "# note"]
               ++ ["- name: Foo"])
  = parse_lines ["- name: Foo"]
  /\ parse_lines ["name: early"; "  url: https://x.test"; "# note"] = Ok [].
Proof.
  apply (parse_ignores_preamble
           ["name: early"; "  url: https://x.test"; "# note"] ["- name: Foo"]).
  repeat constructor.
Defined.

Lemma flush_app (xs items : list record) (c : option record) :
  flush (xs ++ items) c = xs ++ flush items c.
Proof. now rewrite !flush_kept, app_assoc. Qed.

Lemma parse_line_shift (xs : list record) (st : pstate) (l : string) :
  parse_line (with_items (xs ++ items st) st) l
  = match parse_line st l with
    | Ok st' => Ok (with_items (xs ++ items st') st')
    | Raise e => Raise e
    end.
Proof.
  destruct (is_record_start l) eqn:Hl.
  - rewrite !(parse_line_start _ l Hl). cbn. now rewrite flush_app.
  - rewrite (parse_line_frame _ st l Hl).
    destruct (parse_line st l) as [st'|e] eqn:E; [|reflexivity].
    now rewrite (parse_line_items st st' l Hl E).
Qed.

Lemma parse_loop_shift (xs : list record) (lines : list string) :
  forall st,
    parse_loop (with_items (xs ++ items st) st) lines
    = match parse_loop st lines with
      | Ok st' => Ok (with_items (xs ++ items st') st')
      | Raise e => Raise e
      end.
Proof.
  induction lines as [|l lines IH]; intros st; cbn [parse_loop].
  - reflexivity.
  - rewrite parse_line_shift.
    destruct (parse_line st l) as [st1|e]; cbn [rbind]; [apply IH|reflexivity].
Qed.

(** X5.  Documents concatenate: when the second part is empty or begins
    with a record start, the records of the whole are those of the first
    part followed by those of the second. *)
Theorem parse_concatenates (lines1 lines2 : list string) :
  match lines2 with
  | [] => True
  | l :: _ => is_record_start l = true
  end ->
  exists recs1 recs2,
    parse_lines lines1 = Ok recs1
    /\ parse_lines lines2 = Ok recs2
    /\ parse_lines (lines1 ++ lines2) = Ok (recs1 ++ recs2).
Proof.
  intros Hstart. unfold parse_lines.
  destruct (parse_loop_inv lines1 pstate0 stack_inv0) as (st1 & Hrun1 & _).
  destruct (parse_loop_inv lines2 pstate0 stack_inv0) as (st2 & Hrun2 & _).
  rewrite parse_loop_app, Hrun1, Hrun2. cbn [rbind].
  do 2 eexists. split; [reflexivity|]. split; [reflexivity|].
  destruct lines2 as [|l lines2].
  - injection Hrun2 as <-. cbn. now rewrite app_nil_r.
  - cbn [parse_loop] in *.
    rewrite (parse_line_start pstate0 l Hstart) in Hrun2.
    change (flush (items pstate0) (current pstate0)) with (@nil record)
      in Hrun2.
    rewrite (parse_line_start st1 l Hstart). cbn [rbind] in *.
    set (st0 := {| items := []; current := Some (start_record l);
                   in_stack := false |}) in *.
    pose proof (parse_loop_shift (flush (items st1) (current st1)) lines2 st0)
      as Hshift.
    rewrite Hrun2 in Hshift. unfold with_items in Hshift at 1.
    cbn [items current in_stack st0] in Hshift. rewrite app_nil_r in Hshift.
    rewrite Hshift. cbn. now rewrite flush_app.
Qed.

Lemma parse_concatenates_witness :
  exists recs1 recs2,
    parse_lines ["- name: Foo"; "  stack:"; "    - Rust"] = Ok recs1
    /\ parse_lines ["- name: Bar"; "  url: https://bar.test"] = Ok recs2
    /\ parse_lines (["- name: Foo"; "  stack:"; "    - Rust"]
                    ++ ["- name: Bar"; "  url: https://bar.test"])
       = Ok (recs1 ++ recs2).
Proof.
  apply (parse_concatenates
           ["- name: Foo"; "  stack:"; "    - Rust"]
           ["- name: Bar"; "  url: https://bar.test"]).
  reflexivity.
Defined.

(** ** The shape of the records *)

Section DictShape.
Context {V : Type}.
Implicit Types (d : PyDict.dict V) (k : string) (v : V).

Lemma get_none_not_in k d : PyDict.get k d = None -> ~ In k (PyDict.keys d).
Proof.
  induction d as [|[k' v'] d IH]; simpl; [tauto|].
  destruct (String.eqb_spec k k') as [->|Hne]; [discriminate|].
  intros H [Heq|Hin]; [congruence|]. now apply IH.
Qed.

Lemma get_some_in k v d : PyDict.get k d = Some v -> In (k, v) d.
Proof.
  induction d as [|[k' v'] d IH]; simpl; [discriminate|].
  destruct (String.eqb_spec k k') as [->|Hne].
  - intros [= ->]. now left.
  - intros H. right. now apply IH.
Qed.

Lemma NoDup_keys_set k v d :
  NoDup (PyDict.keys d) -> NoDup (PyDict.keys (PyDict.set k v d)).
Proof.
  intros Hd. destruct (PyDict.get k d) as [v0|] eqn:E.
  - now rewrite (keys_set_present k v v0 d E).
  - rewrite (keys_set_absent k v d E).
    apply NoDup_app; [assumption|repeat constructor; intros []|].
    intros x Hx [<-|[]]. exact (get_none_not_in k d E Hx).
Qed.

Lemma Forall_set (P : string * V -> Prop) k v d :
  P (k, v) -> Forall P d -> Forall P (PyDict.set k v d).
Proof.
  intros Hkv. induction 1 as [|[k' v'] d Hx Hd IH]; simpl.
  - repeat constructor. exact Hkv.
  - destruct (String.eqb_spec k k') as [->|Hne]; constructor; auto.
Qed.

End DictShape.

Lemma flush_ok (xs : list record) (c : option record) :
  Forall record_ok xs ->
  (forall r, c = Some r -> NoDup (PyDict.keys r) /\ Forall entry_ok r) ->
  Forall record_ok (flush xs c).
Proof.
  intros Hxs Hc. destruct c as [r|]; simpl; [|assumption].
  destruct (PyDict.truthy r) eqn:E; [|assumption].
  apply Forall_app. split; [assumption|]. repeat constructor; auto;
    now apply Hc.
Qed.

Lemma set_field_ok (line : string) (cur : record) :
  NoDup (PyDict.keys cur) /\ Forall entry_ok cur ->
  NoDup (PyDict.keys (set_field line cur)) /\ Forall entry_ok (set_field line cur).
Proof.
  intros [Hnd Hok]. unfold set_field.
  destruct (PyStr.split_once ":" line) as [key val]. split.
  - now apply NoDup_keys_set.
  - apply Forall_set; [exact I|assumption].
Qed.

Lemma parse_line_records_inv (st st' : pstate) (l : string) :
  records_inv st -> parse_line st l = Ok st' -> records_inv st'.
Proof.
  intros [Hitems Hcur]. unfold parse_line.
  destruct (negb _ || _); [now intros [= <-]|].
  destruct (PyStr.startswith "- " _).
  { intros [= <-]. split; cbn [items current].
    - now apply flush_ok.
    - intros c [= <-].
      destruct (PyStr.contains _ _).
      + apply set_field_ok. split; constructor.
      + split; constructor. }
  destruct (current st) as [cur|] eqn:Ecur.
  2:{ intros [= <-]. split; [assumption|]. rewrite Ecur. intros c [=]. }
  destruct (Hcur cur eq_refl) as [Hnd Hok].
  destruct (PyStr.startswith "  stack:" _).
  { intros [= <-]. split; [assumption|]. cbn [current]. intros c [= <-]. split.
    - now apply NoDup_keys_set.
    - apply Forall_set; [|assumption]. split; [reflexivity|constructor]. }
  destruct (in_stack st && PyStr.startswith "    - " _).
  { destruct (PyStr.truthy _) eqn:Hitem.
    - unfold PyDict.setdefault.
      destruct (PyDict.get "stack" cur) as [v|] eqn:Hget; unfold append_at.
      + rewrite Hget. destruct v as [s|lst|d]; cbn [rbind]; try discriminate.
        intros [= <-]. split; [assumption|]. cbn [current]. intros c [= <-].
        split; [now apply NoDup_keys_set|].
        apply Forall_set; [|assumption].
        pose proof (get_some_in _ _ _ Hget) as Hin.
        rewrite Forall_forall in Hok. destruct (Hok _ Hin) as [_ Hl].
        split; [reflexivity|]. apply Forall_app. split; [assumption|].
        repeat constructor. exact Hitem.
      + rewrite get_set_eq. cbn [rbind]. intros [= <-].
        split; [assumption|]. cbn [current]. intros c [= <-].
        rewrite set_set. split; [now apply NoDup_keys_set|].
        apply Forall_set; [|assumption].
        split; [reflexivity|]. repeat constructor. exact Hitem.
    - intros [= <-]. split; [assumption|]. now rewrite Ecur. }
  destruct (PyStr.startswith "  " _ && PyStr.contains ":" _).
  - intros [= <-]. split; [assumption|]. cbn [current]. intros c [= <-].
    now apply set_field_ok.
  - intros [= <-]. split; [assumption|]. now rewrite Ecur.
Qed.

Lemma parse_loop_records_inv (lines : list string) :
  forall st st',
    records_inv st -> parse_loop st lines = Ok st' -> records_inv st'.
Proof.
  induction lines as [|l lines IH]; intros st st' Hinv; cbn [parse_loop].
  - now intros [= <-].
  - destruct (parse_line st l) as [st1|e] eqn:E; cbn [rbind]; [|discriminate].
    apply IH. eapply parse_line_records_inv; eauto.
Qed.

(** X6.  Every record the reader returns is well formed: it is not empty,
    no key occurs twice, and every value is a string, except that [stack]
    may hold a list, whose items are never empty. *)
Theorem parse_records_well_formed (text : string) :
  exists recs, parse_projects_yaml text = Ok recs /\ Forall record_ok recs.
Proof.
  unfold parse_projects_yaml, parse_lines.
  destruct (parse_loop_inv (PyStr.splitlines text) pstate0 stack_inv0)
    as (st & Hrun & _).
  rewrite Hrun. cbn [rbind]. eexists; split; [reflexivity|].
  assert (Hinv0 : records_inv pstate0).
  { split; [constructor|]. intros c [=]. }
  destruct (parse_loop_records_inv _ _ _ Hinv0 Hrun) as [Hitems Hcur].
  now apply flush_ok.
Qed.

(** X7.  For a record as the reader returns it, what [main] reads under a
    key other than [stack] is the trimmed string stored there, and the
    empty string when the key is missing: the text form of a list is never
    taken. *)
Theorem field_of_parsed_record (R : Runtime) (r : record) (k : string) :
  Forall entry_ok r ->
  k <> "stack" ->
  field k r
  = PyStr.strip (match PyDict.get k r with
                 | Some (VStr s) => s
                 | _ => EmptyString
                 end).
Proof.
  intros Hok Hk. unfold field.
  destruct (PyDict.get k r) as [v|] eqn:Hget; [|reflexivity].
  pose proof (get_some_in _ _ _ Hget) as Hin.
  rewrite Forall_forall in Hok. specialize (Hok _ Hin).
  destruct v as [s|l|d]; cbn in Hok; [reflexivity| |contradiction].
  destruct Hok as [Hstack _]. contradiction.
Qed.

Lemma field_of_parsed_record_witness :
  @field scripted "name" [("name", VStr " Foo "); ("stack", VList ["Rust"])]
  = "Foo".
Proof.
  refine (eq_trans
    (field_of_parsed_record scripted
       [("name", VStr " Foo "); ("stack", VList ["Rust"])] "name" _ _) _).
  - repeat constructor.
  - discriminate.
  - reflexivity.
Defined.

(** ** Quotes, keys and values *)

Lemma length_app (a b : string) :
  String.length (a ++ b) = String.length a + String.length b.
Proof. induction a as [|c a IH]; simpl; [reflexivity|now rewrite IH]. Qed.

Lemma drop_length_app (a b : string) :
  PyStr.drop (String.length a) (a ++ b) = b.
Proof. induction a as [|c a IH]; simpl; auto. Qed.

Lemma drop_last_snoc (a : string) (c : ascii) :
  PyStr.drop_last (a ++ String c EmptyString) = a.
Proof.
  induction a as [|x a IH]; [reflexivity|].
  cbn [append PyStr.drop_last]. rewrite IH. now destruct a.
Qed.

Lemma endswith_snoc (a : string) (c : ascii) :
  PyStr.endswith (String c EmptyString) (a ++ String c EmptyString) = true.
Proof.
  unfold PyStr.endswith. rewrite length_app. cbn [String.length].
  replace (String.length a + 1 - 1) with (String.length a) by lia.
  rewrite drop_length_app, String.eqb_refl, andb_true_r.
  apply Nat.leb_le. lia.
Qed.

Lemma str_app_assoc (a b c : string) :
  ((a ++ b) ++ c)%string = (a ++ b ++ c)%string.
Proof. induction a as [|x a IH]; simpl; [reflexivity|now rewrite IH]. Qed.

Lemma strip_quoted (pad s pad' : string) (c : ascii) :
  PyStr.isspace c = false ->
  PyStr.rstrip pad = EmptyString -> PyStr.rstrip pad' = EmptyString ->
  PyStr.strip (pad ++ String c (s ++ String c pad'))
  = String c (s ++ String c EmptyString).
Proof.
  intros Hc Hpad Hpad'. unfold PyStr.strip.
  replace (pad ++ String c (s ++ String c pad'))%string
    with ((pad ++ String c s) ++ String c pad')%string
    by (rewrite str_app_assoc; reflexivity).
  rewrite (rstrip_app_snoc _ c pad' Hc), Hpad'.
  rewrite str_app_assoc. cbn [append].
  rewrite (lstrip_blank_app pad _ Hpad). cbn [PyStr.lstrip]. now rewrite Hc.
Qed.

(** X8.  A value wrapped in a pair of double quotes or in a pair of
    single quotes, with any whitespace around the quotes, is returned
    without that whitespace and without the two quotes, and otherwise
    untouched: whitespace and further quotes inside stay. *)
Theorem strip_quotes_unwraps (pad s pad' : string) :
  PyStr.rstrip pad = EmptyString ->
  PyStr.rstrip pad' = EmptyString ->
  _strip_quotes (pad ++ DQ ++ s ++ DQ ++ pad') = s
  /\ _strip_quotes (pad ++ "'" ++ s ++ "'" ++ pad') = s.
Proof.
  intros Hpad Hpad'. unfold _strip_quotes, DQ. cbn [append].
  rewrite !strip_quoted by (assumption || reflexivity).
  assert (Hend : forall c,
             PyStr.endswith (String c EmptyString)
                            (String c (s ++ String c EmptyString)) = true)
    by (intros c; exact (endswith_snoc (String c s) c)).
  rewrite !Hend. cbn [PyStr.startswith].
  change (Ascii.eqb "034" "034") with true.
  change (Ascii.eqb "034" "'") with false.
  change (Ascii.eqb "'" "'") with true. cbn [andb].
  unfold PyStr.slice_1_m1. cbn [PyStr.drop].
  split; apply drop_last_snoc.
Qed.

Lemma strip_quotes_unwraps_witness :
  _strip_quotes ("  " ++ DQ ++ " Foo's " ++ DQ ++ " ") = " Foo's "
  /\ _strip_quotes ("  " ++ "'" ++ " Foo's " ++ "'" ++ " ") = " Foo's ".
Proof.
  apply (strip_quotes_unwraps "  " " Foo's " " "); reflexivity.
Defined.

Lemma contains_app_char (k v : string) (c : ascii) :
  PyStr.contains c (k ++ String c v) = true.
Proof.
  induction k as [|a k IH]; cbn [append PyStr.contains].
  - now rewrite Ascii.eqb_refl.
  - rewrite IH. apply orb_true_r.
Qed.

Lemma split_once_app (k v : string) (c : ascii) :
  PyStr.contains c k = false ->
  PyStr.split_once c (k ++ String c v) = (k, v).
Proof.
  induction k as [|a k IH]; cbn [append PyStr.contains PyStr.split_once].
  - now rewrite Ascii.eqb_refl.
  - intros H. apply orb_false_iff in H as [Ha Hk].
    rewrite Ha, (IH Hk). reflexivity.
Qed.

Lemma strip_quotes_rstrip (v : string) :
  _strip_quotes (PyStr.rstrip v) = _strip_quotes v.
Proof. unfold _strip_quotes. now rewrite strip_rstrip. Qed.

(** X9.  A field line is cut at its first colon: the key is the trimmed
    text before it, the value the quote-stripped text after it, further
    colons included.  This holds for the pair on a record-start line and
    for a field line of the record, whose indentation is trimmed off the
    key. *)
Theorem field_cut_at_first_colon (k v : string) :
  PyStr.contains ":" k = false ->
  parse_lines [("- " ++ k ++ ":" ++ v)%string]
  = Ok [ [(PyStr.strip k, VStr (_strip_quotes v))] ]
  /\ forall cur,
       set_field (PyStr.rstrip (k ++ ":" ++ v)%string) cur
       = PyDict.set (PyStr.strip k) (VStr (_strip_quotes v)) cur.
Proof.
  intros Hk. split.
  - assert (Hline : PyStr.rstrip ("- " ++ k ++ ":" ++ v)%string
                    = ("- " ++ k ++ ":" ++ PyStr.rstrip v)%string).
    { change ("- " ++ k ++ ":" ++ v)%string
        with (String "-" (String " " (k ++ String ":" v))).
      change (String "-" (String " " (k ++ String ":" v)))
        with (("- " ++ k) ++ String ":" v)%string.
      now rewrite rstrip_app_snoc. }
    assert (Hstart : is_record_start ("- " ++ k ++ ":" ++ v)%string = true).
    { unfold is_record_start. rewrite Hline. reflexivity. }
    unfold parse_lines. cbn [parse_loop].
    rewrite (parse_line_start pstate0 _ Hstart). cbn [rbind items current].
    unfold start_record. rewrite Hline. cbn [append PyStr.drop].
    rewrite contains_app_char. unfold set_field.
    rewrite (split_once_app k _ ":" Hk), strip_quotes_rstrip. reflexivity.
  - intros cur. unfold set_field.
    change (k ++ ":" ++ v)%string with (k ++ String ":" v)%string.
    rewrite rstrip_app_snoc by reflexivity.
    rewrite (split_once_app k _ ":" Hk), strip_quotes_rstrip. reflexivity.
Qed.

Lemma field_cut_at_first_colon_witness :
  parse_lines [("- " ++ "url " ++ ":" ++ " 'https://x.test:8080/a'  ")%string]
  = Ok [ [("url", VStr "https://x.test:8080/a")] ].
Proof.
  exact (proj1 (field_cut_at_first_colon
                  "url " " 'https://x.test:8080/a'  " eq_refl)).
Defined.

(** ** The extractor over a whole page *)

Lemma str_app_nil_r (a : string) : (a ++ EmptyString)%string = a.
Proof. induction a as [|x a IH]; simpl; [reflexivity|now rewrite IH]. Qed.

Lemma concat_cons (x : string) (xs : list string) :
  String.concat EmptyString (x :: xs)
  = (x ++ String.concat EmptyString xs)%string.
Proof. destruct xs; cbn [String.concat append]; [now rewrite str_app_nil_r|reflexivity]. Qed.

Lemma fold_data_in_title (ds : list string) :
  forall self,
    _in_title self = true ->
    fold_left handle_event (map Data ds) self
    = {| meta := meta self;
         title := (title self ++ String.concat EmptyString ds)%string;
         _in_title := true |}.
Proof.
  induction ds as [|d ds IH]; intros self Hin.
  - cbn [map fold_left String.concat]. rewrite str_app_nil_r.
    destruct self; cbn in *; now subst.
  - cbn [map fold_left handle_event]. unfold handle_data at 1. rewrite Hin.
    rewrite IH by reflexivity. cbn [meta title].
    now rewrite concat_cons, str_app_assoc.
Qed.

Lemma fold_data_outside_title (ds : list string) :
  forall self,
    _in_title self = false -> fold_left handle_event (map Data ds) self = self.
Proof.
  induction ds as [|d ds IH]; intros self Hin; [reflexivity|].
  cbn [map fold_left handle_event]. unfold handle_data at 1. rewrite Hin.
  now apply IH.
Qed.

(** X10.  The text between a [title] start tag and the next [title] end
    tag is appended to the title collected so far, piece by piece and
    untrimmed, whatever the letter case of the tag names; the meta map is
    left alone; and text met while no title is open is dropped. *)
Theorem title_text_collected (self : MetaParser) (tag tag' : string)
        (attrs : list (string * option string)) (ds : list string) :
  PyStr.lower tag = "title" ->
  PyStr.lower tag' = "title" ->
  fold_left handle_event
    (StartTag tag attrs :: map Data ds ++ [EndTag tag']) self
  = {| meta := meta self;
       title := (title self ++ String.concat EmptyString ds)%string;
       _in_title := false |}
  /\ (_in_title self = false ->
      fold_left handle_event (map Data ds) self = self).
Proof.
  intros Htag Htag'. split; [|apply fold_data_outside_title].
  cbn [fold_left handle_event]. rewrite fold_left_app.
  unfold handle_starttag at 1. rewrite Htag.
  change (String.eqb "title" "meta") with false.
  change (String.eqb "title" "title") with true. cbv iota.
  rewrite fold_data_in_title by reflexivity.
  cbn [fold_left handle_event]. unfold handle_endtag. rewrite Htag'.
  reflexivity.
Qed.

Lemma title_text_collected_witness :
  fold_left handle_event
    (StartTag "TITLE" [] :: map Data [" My "; "page "] ++ [EndTag "Title"])
    {| meta := [("og:title", "Hi")]; title := "Old"; _in_title := false |}
  = {| meta := [("og:title", "Hi")]; title := "Old My page ";
       _in_title := false |}.
Proof.
  exact (proj1 (title_text_collected
                  {| meta := [("og:title", "Hi")]; title := "Old";
                     _in_title := false |}
                  "TITLE" "Title" [] [" My "; "page "] eq_refl eq_refl)).
Defined.

Lemma handle_event_not_meta (self : MetaParser) (ev : html_event) :
  is_meta_start ev = false -> meta (handle_event self ev) = meta self.
Proof.
  destruct ev as [tag attrs|tag|data]; cbn [is_meta_start handle_event].
  - intros H. unfold handle_starttag. rewrite H.
    now destruct (String.eqb _ "title").
  - intros _. unfold handle_endtag. now destruct (String.eqb _ _).
  - intros _. unfold handle_data. now destruct (_in_title self).
Qed.

Lemma handle_event_meta_start (self : MetaParser) (ev : html_event) :
  is_meta_start ev = true ->
  title (handle_event self ev) = title self
  /\ _in_title (handle_event self ev) = _in_title self.
Proof.
  destruct ev as [tag attrs|tag|data]; cbn [is_meta_start handle_event];
    try discriminate.
  intros H. unfold handle_starttag. rewrite H.
  destruct (or_opt _ _) as [k|]; [|auto].
  destruct (PyDict.get "content" _) as [c|]; [|auto].
  destruct (PyStr.truthy k && PyStr.truthy c); auto.
Qed.

Lemma handle_event_meta_congr (p p' : MetaParser) (ev : html_event) :
  meta p = meta p' -> meta (handle_event p ev) = meta (handle_event p' ev).
Proof.
  intros Hm. destruct (is_meta_start ev) eqn:E.
  - destruct ev as [tag attrs|tag|data]; cbn [is_meta_start] in E;
      try discriminate.
    cbn [handle_event]. unfold handle_starttag. rewrite E.
    destruct (or_opt _ _) as [k|]; [|assumption].
    destruct (PyDict.get "content" _) as [c|]; [|assumption].
    destruct (PyStr.truthy k && PyStr.truthy c); [|assumption].
    cbn [meta]. now rewrite Hm.
  - now rewrite !handle_event_not_meta.
Qed.

Lemma handle_event_title_congr (p p' : MetaParser) (ev : html_event) :
  title p = title p' -> _in_title p = _in_title p' ->
  title (handle_event p ev) = title (handle_event p' ev)
  /\ _in_title (handle_event p ev) = _in_title (handle_event p' ev).
Proof.
  intros Ht Hi. destruct (is_meta_start ev) eqn:E.
  - destruct (handle_event_meta_start p ev E) as [-> ->].
    destruct (handle_event_meta_start p' ev E) as [-> ->]. auto.
  - destruct ev as [tag attrs|tag|data]; cbn [is_meta_start handle_event] in *.
    + unfold handle_starttag. rewrite E.
      destruct (String.eqb _ "title"); auto.
    + unfold handle_endtag. destruct (String.eqb _ _); auto.
    + unfold handle_data. rewrite Hi.
      destruct (_in_title p') eqn:Hi'; cbn [title _in_title].
      * now rewrite Ht.
      * split; congruence.
Qed.

Lemma fold_meta_congr (evs : list html_event) :
  forall p p',
    meta p = meta p' ->
    meta (fold_left handle_event evs p) = meta (fold_left handle_event evs p').
Proof.
  induction evs as [|ev evs IH]; intros p p' Hm; [assumption|].
  cbn [fold_left]. apply IH. now apply handle_event_meta_congr.
Qed.

Lemma fold_title_congr (evs : list html_event) :
  forall p p',
    title p = title p' -> _in_title p = _in_title p' ->
    title (fold_left handle_event evs p)
    = title (fold_left handle_event evs p')
    /\ _in_title (fold_left handle_event evs p)
       = _in_title (fold_left handle_event evs p').
Proof.
  induction evs as [|ev evs IH]; intros p p' Ht Hi; [auto|].
  cbn [fold_left].
  destruct (handle_event_title_congr p p' ev Ht Hi) as [Ht1 Hi1]. now apply IH.
Qed.

(** X11.  The meta map and the title are collected independently: the
    map a page yields is the one its [meta] start tags yield alone, and the
    title is the one the other events yield alone. *)
Theorem meta_and_title_independent (evs : list html_event) (self : MetaParser) :
  meta (fold_left handle_event evs self)
  = meta (fold_left handle_event (filter is_meta_start evs) self)
  /\ title (fold_left handle_event evs self)
     = title (fold_left handle_event
                (filter (fun ev => negb (is_meta_start ev)) evs) self).
Proof.
  split.
  - revert self; induction evs as [|ev evs IH]; intros self; [reflexivity|].
    cbn [fold_left filter]. destruct (is_meta_start ev) eqn:E.
    + cbn [fold_left]. apply IH.
    + rewrite IH. apply fold_meta_congr. now apply handle_event_not_meta.
  - enough (forall self,
               title (fold_left handle_event evs self)
               = title (fold_left handle_event
                          (filter (fun ev => negb (is_meta_start ev)) evs) self)
               /\ _in_title (fold_left handle_event evs self)
                  = _in_title (fold_left handle_event
                          (filter (fun ev => negb (is_meta_start ev)) evs) self))
      as H by apply H.
    clear self. induction evs as [|ev evs IH]; intros self; [auto|].
    cbn [fold_left filter]. destruct (is_meta_start ev) eqn:E; cbn [negb].
    + destruct (IH (handle_event self ev)) as [-> ->].
      destruct (handle_event_meta_start self ev E) as [Ht Hi].
      now apply fold_title_congr.
    + cbn [fold_left]. apply IH.
Qed.

Lemma lower_char_idem (c : ascii) :
  PyStr.lower_char (PyStr.lower_char c) = PyStr.lower_char c.
Proof. destruct c as [[] [] [] [] [] [] [] []]; reflexivity. Qed.

Lemma isspace_lower_char (c : ascii) :
  PyStr.isspace (PyStr.lower_char c) = PyStr.isspace c.
Proof. destruct c as [[] [] [] [] [] [] [] []]; reflexivity. Qed.

Lemma lower_idem (s : string) : PyStr.lower (PyStr.lower s) = PyStr.lower s.
Proof.
  induction s as [|c s IH]; cbn [PyStr.lower]; [reflexivity|].
  now rewrite lower_char_idem, IH.
Qed.

Lemma lstrip_lower (s : string) :
  PyStr.lstrip (PyStr.lower s) = PyStr.lower (PyStr.lstrip s).
Proof.
  induction s as [|c s IH]; cbn [PyStr.lower PyStr.lstrip]; [reflexivity|].
  rewrite isspace_lower_char. now destruct (PyStr.isspace c).
Qed.

Lemma rstrip_lower (s : string) :
  PyStr.rstrip (PyStr.lower s) = PyStr.lower (PyStr.rstrip s).
Proof.
  induction s as [|c s IH]; cbn [PyStr.lower PyStr.rstrip]; [reflexivity|].
  rewrite IH, isspace_lower_char.
  destruct (PyStr.rstrip s); cbn [PyStr.lower]; [|reflexivity].
  now destruct (PyStr.isspace c).
Qed.

Lemma strip_lower (s : string) :
  PyStr.strip (PyStr.lower s) = PyStr.lower (PyStr.strip s).
Proof. unfold PyStr.strip. now rewrite rstrip_lower, lstrip_lower. Qed.

Lemma handle_event_meta_ok (self : MetaParser) (ev : html_event) :
  NoDup (PyDict.keys (meta self)) /\ Forall meta_entry_ok (meta self) ->
  NoDup (PyDict.keys (meta (handle_event self ev)))
  /\ Forall meta_entry_ok (meta (handle_event self ev)).
Proof.
  intros [Hnd Hok]. destruct (is_meta_start ev) eqn:E.
  - destruct ev as [tag attrs|tag|data]; cbn [is_meta_start] in E;
      try discriminate.
    cbn [handle_event]. unfold handle_starttag. rewrite E.
    destruct (or_opt _ _) as [k|]; [|auto].
    destruct (PyDict.get "content" _) as [c|]; [|auto].
    destruct (PyStr.truthy k && PyStr.truthy c); [|auto].
    cbn [meta]. split; [now apply NoDup_keys_set|].
    apply Forall_set; [|assumption].
    unfold meta_entry_ok. cbn [fst snd].
    now rewrite lower_idem, strip_lower, !strip_idem.
  - now rewrite handle_event_not_meta.
Qed.

(** X12.  Whatever the page, the meta map the extractor builds is in
    normal form: no key occurs twice, every key is lower-case and free of
    surrounding whitespace, and every value is free of surrounding
    whitespace. *)
Theorem feed_meta_normal_form (R : Runtime) (html : string) :
  NoDup (PyDict.keys (meta (feed html)))
  /\ Forall meta_entry_ok (meta (feed html)).
Proof.
  unfold feed.
  enough (forall evs self,
             NoDup (PyDict.keys (meta self)) /\ Forall meta_entry_ok (meta self) ->
             NoDup (PyDict.keys (meta (fold_left handle_event evs self)))
             /\ Forall meta_entry_ok (meta (fold_left handle_event evs self)))
    as H.
  { apply H. split; constructor. }
  induction evs as [|ev evs IH]; intros self Hself; [assumption|].
  cbn [fold_left]. apply IH. now apply handle_event_meta_ok.
Qed.

(** ** The other fields of a card *)

(** X13.  The description of a built card is the first non-empty value
    among [twitter:description], [og:description] and the plain
    [description] meta tag, else the description fallback; the site is
    [twitter:site] when it is non-empty, else empty. *)
Theorem build_card_description_site (R : Runtime) (url : string)
        (meta : PyDict.dict string) (title_fallback desc_fallback : string) :
  let card := build_card url meta title_fallback desc_fallback in
  PyDict.get "description" card
  = Some (first_nonempty
            [PyDict.get "twitter:description" meta;
             PyDict.get "og:description" meta;
             PyDict.get "description" meta] desc_fallback)
  /\ PyDict.get "site" card
     = Some (first_nonempty [PyDict.get "twitter:site" meta] EmptyString).
Proof.
  cbv zeta. rewrite build_card_fields. split; reflexivity.
Qed.

(** X14.  The type of a built card is the [twitter:card] value when that
    is non-empty; otherwise it is summary_large_image when the image of
    the card is non-empty and summary when it is empty.  So a built card
    never has an empty type. *)
Theorem build_card_type (R : Runtime) (url : string)
        (meta : PyDict.dict string) (title_fallback desc_fallback : string) :
  let card := build_card url meta title_fallback desc_fallback in
  exists image type,
    PyDict.get "image" card = Some image
    /\ PyDict.get "type" card = Some type
    /\ type = match nonempty_opt (PyDict.get "twitter:card" meta) with
              | Some t => t
              | None => if PyStr.truthy image then "summary_large_image"
                        else "summary"
              end
    /\ PyStr.truthy type = true.
Proof.
  cbv zeta. rewrite build_card_fields. cbv zeta.
  set (cand := first_nonempty [PyDict.get "twitter:image" meta;
                               PyDict.get "og:image" meta] EmptyString).
  set (image := if PyStr.truthy cand then urljoin url cand else EmptyString).
  exists image,
    (first_nonempty [PyDict.get "twitter:card" meta]
       (if PyStr.truthy image then "summary_large_image" else "summary")).
  split; [reflexivity|]. split; [reflexivity|].
  unfold first_nonempty, nonempty_opt.
  destruct (PyDict.get "twitter:card" meta) as [t|];
    [destruct (PyStr.truthy t) eqn:Et|];
    (split; [reflexivity|]); auto; now destruct (PyStr.truthy image).
Qed.

Lemma first_nonempty_norm (cs : list (option string)) (fallback : string) :
  first_nonempty cs fallback = first_nonempty (map nonempty_opt cs) fallback.
Proof.
  induction cs as [|[s|] cs IH]; cbn [map first_nonempty nonempty_opt];
    [reflexivity| |assumption].
  destruct (PyStr.truthy s) eqn:E; cbn [first_nonempty]; [now rewrite E|].
  assumption.
Qed.

(** X15.  A card depends on the meta map only through the nine keys the
    builder reads, and an empty value under one of them counts as a missing
    one: two maps that agree on these keys, up to that, give the same
    card. *)
Theorem build_card_reads_nine_keys (R : Runtime) (url : string)
        (meta meta' : PyDict.dict string) (title_fallback desc_fallback : string) :
  (forall k, In k card_meta_keys ->
             nonempty_opt (PyDict.get k meta) = nonempty_opt (PyDict.get k meta')) ->
  build_card url meta title_fallback desc_fallback
  = build_card url meta' title_fallback desc_fallback.
Proof.
  intros H. rewrite !build_card_fields. cbv zeta.
  rewrite !(first_nonempty_norm [_; _; _]), !(first_nonempty_norm [_; _]),
          !(first_nonempty_norm [_]).
  cbn [map].
  rewrite !(H "og:title"), !(H "twitter:title"), !(H "og:description"),
          !(H "twitter:description"), !(H "description"), !(H "og:image"),
          !(H "twitter:image"), !(H "twitter:card"), !(H "twitter:site")
    by (cbn; tauto).
  reflexivity.
Qed.

Lemma build_card_reads_nine_keys_witness :
  @build_card scripted "https://x.test"
    [("og:title", "Hi"); ("twitter:title", EmptyString); ("author", "me")]
    "X" "d"
  = @build_card scripted "https://x.test" [("og:title", "Hi")] "X" "d".
Proof.
  apply (build_card_reads_nine_keys scripted).
  intros k Hk. cbn in Hk.
  repeat (destruct Hk as [<-|Hk]; [reflexivity|]). contradiction.
Defined.

(** ** The driver, record by record *)

Section DriverFacts.
Context {R : Runtime}.




Lemma fetch_html_requests (url : string) (s : io) :
  requests (snd (fetch_html url s)) = requests s ++ [page_request url].
Proof.
  unfold fetch_html. fold (page_request url).
  destruct (urlopen (page_request url) (net s)) as [[resp|e] w]; reflexivity.
Qed.

Lemma project_card_requests (project : record) (s : io) :
  requests (snd (project_card project s))
  = requests s
    ++ (if PyStr.truthy (field "url" project)
        then [page_request (field "url" project)] else []).
Proof.
  unfold project_card.
  destruct (PyStr.truthy (field "url" project)).
  - unfold try_except, bind, ret.
    pose proof (fetch_html_requests (field "url" project) s) as Hreq.
    destruct (fetch_html (field "url" project) s) as [[html|e] s1];
      cbn [snd] in *; [assumption|].
    now destruct (caught e).
  - cbn. now rewrite app_nil_r.
Qed.

Lemma project_card_raises (project : record) (s s' : io) (e : exn) :
  project_card project s = (Raise e, s') -> caught e = false.
Proof.
  unfold project_card.
  destruct (PyStr.truthy (field "url" project)); [|discriminate].
  unfold try_except, bind, ret.
  destruct (fetch_html (field "url" project) s) as [[html|e0] s1];
    [discriminate|].
  destruct (caught e0) eqn:E; [discriminate|]. now intros [= <- _].
Qed.

Lemma enrich_raises (projects : list record) :
  forall s s' e, enrich projects s = (Raise e, s') -> caught e = false.
Proof.
  induction projects as [|p rest IH]; intros s s' e.
  - discriminate.
  - rewrite enrich_cons.
    destruct (project_card p s) as [[card|e0] s1] eqn:Hcard.
    + destruct (enrich rest s1) as [[items|e1] s2] eqn:Hrest; [discriminate|].
      intros [= <- _]. eapply IH; eauto.
    + intros [= <- _]. eapply project_card_raises; eauto.
Qed.

End DriverFacts.



(** ** The driver, over the batch *)

(** X18.  The loop sends one request for each project with a non-empty
    trimmed [url], in the order of the projects, with that URL, the two
    fixed headers and a timeout of 15 seconds, and nothing else: no request
    for a project without URL and none sent twice.  When the loop stops on
    an unhandled exception, the requests sent are a first part of that
    list. *)
Theorem enrich_requests (R : Runtime) (projects : list record) (s : io) :
  let '(r, s') := enrich projects s in
  (exists n, requests s'
             = requests s ++ map page_request (firstn n (fetched_urls projects)))
  /\ (forall enriched, r = Ok enriched ->
      requests s' = requests s ++ map page_request (fetched_urls projects)).
Proof.
  revert s. induction projects as [|p rest IH]; intros s.
  - cbn. split; [exists 0|intros _ _]; cbn; now rewrite app_nil_r.
  - rewrite enrich_cons.
    pose proof (project_card_requests p s) as Hreq.
    unfold fetched_urls in *. cbn [map filter].
    destruct (project_card p s) as [[card|e] s1]; cbn [snd] in Hreq.
    + specialize (IH s1).
      destruct (enrich rest s1) as [[items|e] s2];
        destruct IH as [[n Hn] Hall];
        (split; [|intros enriched [=]; rewrite (Hall _ eq_refl), Hreq;
                  rewrite <- app_assoc; f_equal;
                  now destruct (PyStr.truthy (field "url" p))]);
        rewrite Hn, Hreq, <- app_assoc;
        (destruct (PyStr.truthy (field "url" p));
         [exists (S n)|exists n]; reflexivity).
    + split; [|discriminate].
      rewrite Hreq. destruct (PyStr.truthy (field "url" p)).
      * now exists 1.
      * now exists 0.
Qed.

(** ** The stack opener *)

(** X21.  Inside a record, a line beginning with two spaces and [stack:]
    puts an empty list under [stack] and opens the stack context, whatever
    follows the colon on that line and whatever was stored under [stack]
    before: a list written on the opener line itself is dropped, and a
    second opener discards the items collected so far. *)
Theorem stack_opener_resets (st : pstate) (cur : record) (tail : string) :
  current st = Some cur ->
  exists cur',
    parse_line st ("  stack:" ++ tail)
    = Ok {| items := items st; current := Some cur'; in_stack := true |}
    /\ PyDict.get "stack" cur' = Some (VList [])
    /\ (forall k, k <> "stack" -> PyDict.get k cur' = PyDict.get k cur).
Proof.
  intros Hcur. exists (PyDict.set "stack" (VList []) cur). split.
  - unfold parse_line.
    change ("  stack:" ++ tail)%string with ("  stack" ++ String ":" tail)%string.
    rewrite rstrip_app_snoc by reflexivity. cbn. now rewrite Hcur.
  - split; [apply get_set_eq|]. intros k Hk. now apply get_set_ne.
Qed.

Lemma stack_opener_resets_witness :
  exists cur',
    parse_line {| items := [];
                  current := Some [("name", VStr "Foo");
                                   ("stack", VList ["Rust"])];
                  in_stack := false |}
               ("  stack:" ++ " [Go, Zig]")
    = Ok {| items := []; current := Some cur'; in_stack := true |}
    /\ PyDict.get "stack" cur' = Some (VList [])
    /\ (forall k, k <> "stack" ->
        PyDict.get k cur'
        = PyDict.get k [("name", VStr "Foo"); ("stack", VList ["Rust"])]).
Proof.
  exact (stack_opener_resets
           {| items := [];
              current := Some [("name", VStr "Foo"); ("stack", VList ["Rust"])];
              in_stack := false |}
           [("name", VStr "Foo"); ("stack", VList ["Rust"])]
           " [Go, Zig]" eq_refl).
Defined.

(** * The driver with raising library calls *)

Section RaisingCard.
Context {F : Faults}.

(** The built card, by the precedence rules, around the one call that can
    raise. *)
Lemma raising_build_card_fields (url : string) (meta : PyDict.dict string)
      (title_fallback desc_fallback : string) :
  let candidate :=
    first_nonempty [PyDict.get "twitter:image" meta; PyDict.get "og:image" meta]
                   EmptyString in
  Raising.build_card url meta title_fallback desc_fallback
  = (image <- (if PyStr.truthy candidate then join url candidate
               else Ok EmptyString) ;;
     Ok [("type",
          first_nonempty [PyDict.get "twitter:card" meta]
            (if PyStr.truthy image then "summary_large_image" else "summary"));
         ("title",
          first_nonempty
            [PyDict.get "twitter:title" meta; PyDict.get "og:title" meta]
            title_fallback);
         ("description",
          first_nonempty [PyDict.get "twitter:description" meta;
                          PyDict.get "og:description" meta;
                          PyDict.get "description" meta] desc_fallback);
         ("image", image);
         ("site", first_nonempty [PyDict.get "twitter:site" meta] EmptyString)]).
Proof.
  unfold Raising.build_card, Raising.resolve_url.
  rewrite or_first_nonempty3, !or_first_nonempty2.
  set (cand := first_nonempty [PyDict.get "twitter:image" meta;
                               PyDict.get "og:image" meta] EmptyString).
  cbn zeta.
  assert (Himage : (if PyStr.truthy cand then join url cand else Ok cand)
                   = (if PyStr.truthy cand then join url cand
                      else Ok EmptyString)).
  { destruct cand; reflexivity. }
  rewrite Himage.
  destruct (if PyStr.truthy cand then join url cand else Ok EmptyString)
    as [image|e]; cbn [rbind]; [|reflexivity].
  repeat f_equal.
  unfold truthy_opt, or_str. simpl.
  destruct (PyDict.get "twitter:card" meta) as [t|]; [|reflexivity].
  now destruct (PyStr.truthy t).
Qed.

Lemma raising_build_card_keys (url : string) (meta : PyDict.dict string)
      (title_fallback desc_fallback : string) (card : PyDict.dict string) :
  Raising.build_card url meta title_fallback desc_fallback = Ok card ->
  PyDict.keys card = card_keys
  /\ PyDict.get "title" card
     = Some (first_nonempty
               [PyDict.get "twitter:title" meta; PyDict.get "og:title" meta]
               title_fallback)
  /\ PyDict.get "error" card = None.
Proof.
  rewrite raising_build_card_fields. cbv zeta.
  destruct (if PyStr.truthy _ then _ else _) as [image|e]; cbn [rbind];
    [|discriminate].
  intros [= <-]. repeat split.
Qed.

Lemma raising_build_card_raises (url : string) (meta : PyDict.dict string)
      (title_fallback desc_fallback : string) (e : exn) :
  Raising.build_card url meta title_fallback desc_fallback = Raise e ->
  exists candidate, join url candidate = Raise e.
Proof.
  rewrite raising_build_card_fields. cbv zeta.
  destruct (PyStr.truthy _).
  - destruct (join url _) as [image|e0] eqn:Hj; cbn [rbind]; [discriminate|].
    intros [= <-]. eauto.
  - discriminate.
Qed.

End RaisingCard.

(** Where the join returns what the runtime's total join returns, the two
    builders agree. *)
Lemma raising_build_card_agrees (R : Runtime) (F : Faults) (url : string)
      (meta : PyDict.dict string) (title_fallback desc_fallback : string) :
  (forall candidate, join url candidate = Ok (urljoin url candidate)) ->
  Raising.build_card url meta title_fallback desc_fallback
  = Ok (build_card url meta title_fallback desc_fallback).
Proof.
  intros Hjoin. rewrite raising_build_card_fields, build_card_fields. cbv zeta.
  rewrite Hjoin. now destruct (PyStr.truthy _).
Qed.

(** C7, as amended.  With an empty meta map and the fallbacks Proj and
    Desc the builder returns the summary card with these two texts and an
    empty image and site, whatever the source URL and whatever the library
    does.  In general the builder has one failure condition, the URL join
    of the image: it returns a card when no image candidate is non-empty
    and when the join of the candidate returns, and it raises what that
    join raises.  Every card it returns has exactly the five fields type,
    title, description, image and site. *)
Theorem build_card_returns_unless_join_raises (F : Faults) (url : string) :
  Raising.build_card url [] "Proj" "Desc"
  = Ok [("type", "summary"); ("title", "Proj"); ("description", "Desc");
        ("image", EmptyString); ("site", EmptyString)]
  /\ (forall (meta : PyDict.dict string) (title_fallback desc_fallback : string),
      let candidate :=
        first_nonempty
          [PyDict.get "twitter:image" meta; PyDict.get "og:image" meta]
          EmptyString in
      (forall card,
          Raising.build_card url meta title_fallback desc_fallback = Ok card ->
          PyDict.keys card = ["type"; "title"; "description"; "image"; "site"])
      /\ (PyStr.truthy candidate = false ->
          exists card,
            Raising.build_card url meta title_fallback desc_fallback = Ok card
            /\ PyDict.get "image" card = Some EmptyString)
      /\ (forall image,
             PyStr.truthy candidate = true -> join url candidate = Ok image ->
             exists card,
               Raising.build_card url meta title_fallback desc_fallback = Ok card
               /\ PyDict.get "image" card = Some image)
      /\ (forall e,
             PyStr.truthy candidate = true -> join url candidate = Raise e ->
             Raising.build_card url meta title_fallback desc_fallback = Raise e)).
Proof.
  split; [reflexivity|].
  intros meta title_fallback desc_fallback candidate. repeat split.
  - intros card Hcard.
    now destruct (raising_build_card_keys _ _ _ _ _ Hcard) as [Hkeys _].
  - intros Hc. rewrite raising_build_card_fields. cbv zeta.
    fold candidate. rewrite Hc. cbn [rbind]. eexists. split; reflexivity.
  - intros image Hc Hj. rewrite raising_build_card_fields. cbv zeta.
    fold candidate. rewrite Hc, Hj. cbn [rbind]. eexists. split; reflexivity.
  - intros e Hc Hj. rewrite raising_build_card_fields. cbv zeta.
    fold candidate. rewrite Hc, Hj. reflexivity.
Qed.

Lemma build_card_returns_unless_join_raises_witness :
  (exists card,
      @Raising.build_card (checked []) "https://example.com/page"
        [("og:image", "/img.png")] "Proj" "Desc" = Ok card
      /\ PyDict.get "image" card = Some "https://example.com/img.png")
  /\ (exists card,
         @Raising.build_card (checked []) "https://example.com/page"
           [("og:title", "Hi")] "Proj" "Desc" = Ok card
         /\ PyDict.get "image" card = Some EmptyString).
Proof.
  split.
  - exact (proj1 (proj2 (proj2
             (proj2 (build_card_returns_unless_join_raises
                       (checked []) "https://example.com/page")
                    [("og:image", "/img.png")] "Proj" "Desc")))
             "https://example.com/img.png" eq_refl eq_refl).
  - exact (proj1 (proj2
             (proj2 (build_card_returns_unless_join_raises
                       (checked []) "https://example.com/page")
                    [("og:title", "Hi")] "Proj" "Desc"))
             eq_refl).
Defined.

(** C7, as stated, fails: the builder has a failure condition.  For an
    image whose authority has an opening bracket and no closing one the
    library's join raises, and so does the builder. *)
Lemma build_card_raises_on_bad_image :
  @Raising.build_card (checked []) "https://example.com/page"
    [("og:image", "//[")] "Proj" "Desc"
  = Raise (mkExn (OtherError "ValueError") "Invalid IPv6 URL").
Proof. reflexivity. Qed.

Section RaisingDriver.
Context {R : Runtime} {F : Faults}.

(** One turn of the loop. *)
Lemma raising_enrich_cons (project : record) (rest : list record) (s : io) :
  Raising.enrich (project :: rest) s
  = match Raising.project_card project s with
    | (Ok card, s1) =>
        match Raising.enrich rest s1 with
        | (Ok enriched, s2) => (Ok (enriched_item project card :: enriched), s2)
        | (Raise e, s2) => (Raise e, s2)
        end
    | (Raise e, s1) => (Raise e, s1)
    end.
Proof.
  cbn [Raising.enrich]. unfold bind, ret.
  destruct (Raising.project_card project s) as [[card|e] s1]; [|reflexivity].
  destruct (Raising.enrich rest s1) as [[enriched|e] s2]; reflexivity.
Qed.

Lemma raising_enrich_length (projects : list record) :
  forall enriched s s',
    Raising.enrich projects s = (Ok enriched, s') ->
    length enriched = length projects.
Proof.
  induction projects as [|p rest IH]; intros enriched s s'.
  - cbn. unfold ret. now intros [= <- _].
  - rewrite raising_enrich_cons.
    destruct (Raising.project_card p s) as [[card|e] s1]; [|discriminate].
    destruct (Raising.enrich rest s1) as [[items|e] s2] eqn:Hrest;
      [|discriminate].
    intros [= <- _]. cbn [length]. f_equal. eapply IH; eauto.
Qed.


End RaisingDriver.

(** Where the tokenizer and the join return what the runtime's total ones
    return, the two loops agree. *)
Lemma raising_enrich_agrees (R : Runtime) (F : Faults) :
  (forall html, tokenize html = Ok (html_events html)) ->
  (forall base candidate, join base candidate = Ok (urljoin base candidate)) ->
  forall projects s, Raising.enrich projects s = enrich projects s.
Proof.
  intros Htok Hjoin.
  assert (Hcard : forall p s, Raising.project_card p s = project_card p s).
  { intros p s. unfold Raising.project_card, project_card.
    destruct (PyStr.truthy (field "url" p)); [|reflexivity].
    unfold try_except, bind, lift, ret.
    destruct (fetch_html (field "url" p) s) as [[html|e] s1]; [|reflexivity].
    unfold Raising.feed. rewrite Htok. cbn [rbind]. fold (feed html).
    now rewrite (raising_build_card_agrees R F _ _ _ _ (Hjoin _)). }
  intros ps. induction ps as [|p rest IH]; intros s; [reflexivity|].
  rewrite raising_enrich_cons, enrich_cons, Hcard.
  destruct (project_card p s) as [[card|e] s1]; [|reflexivity].
  now rewrite IH.
Qed.



(** X19.  If every exception that the network call, the decoding, the
    tokenizer and the URL join can raise is a [URLError], an [HTTPError] or
    a [TimeoutError], the loop never fails: it returns one output record
    for each project. *)
Theorem batch_completes (R : Runtime) (F : Faults) :
  (forall req w e w', urlopen req w = (Raise e, w') -> caught e = true) ->
  (forall charset body e, decode charset body = Raise e -> caught e = true) ->
  (forall html e, tokenize html = Raise e -> caught e = true) ->
  (forall base candidate e, join base candidate = Raise e -> caught e = true) ->
  forall projects s,
  exists enriched s',
    Raising.enrich projects s = (Ok enriched, s')
    /\ length enriched = length projects.
Proof.
  intros Hopen Hdecode Htok Hjoin.
  assert (Hcard : forall p s, exists card s1,
               Raising.project_card p s = (Ok card, s1)).
  { intros p s. unfold Raising.project_card.
    destruct (PyStr.truthy (field "url" p)); [|unfold ret; eauto].
    unfold try_except, bind, lift, ret, fetch_html.
    destruct (urlopen _ (net s)) as [[resp|e] w] eqn:Hu.
    - destruct (decode _ _) as [html|e] eqn:Hd.
      + unfold Raising.feed.
        destruct (tokenize html) as [events|e] eqn:Ht; cbn [rbind].
        * destruct (Raising.build_card _ _ _ _) as [card|e] eqn:Hb; [eauto|].
          destruct (raising_build_card_raises _ _ _ _ _ Hb) as [c Hc].
          rewrite (Hjoin _ _ _ Hc). eauto.
        * rewrite (Htok _ _ Ht). eauto.
      + rewrite (Hdecode _ _ _ Hd). eauto.
    - rewrite (Hopen _ _ _ _ Hu). eauto. }
  intros ps. induction ps as [|p rest IH]; intros s.
  - exists [], s. split; reflexivity.
  - destruct (Hcard p s) as (card & s1 & Hp).
    destruct (IH s1) as (enriched & s' & Hrest & Hlen).
    exists (enriched_item p card :: enriched), s'.
    rewrite raising_enrich_cons, Hp, Hrest. cbn [length]. auto.
Qed.

Lemma batch_completes_witness :
  exists enriched s',
    @Raising.enrich offline quiet
      [ [("name", VStr "A"); ("url", VStr "https://a.test")];
        [("name", VStr "B")] ]
      (@mkIO offline tt [])
    = (Ok enriched, s')
    /\ length enriched = 2.
Proof.
  apply (batch_completes offline quiet).
  - intros req w e w' [= <- _]. reflexivity.
  - intros charset body e. discriminate.
  - intros html e. discriminate.
  - intros base candidate e. discriminate.
Defined.

(** X20.  A run that returns has one of two outcomes.  With the status 1
    the input file does not exist, nothing is written and the state, with
    its requests, is untouched.  With the status 0 the file exists and was
    read, the loop returned, and the payload written holds the time
    followed by Z and one output record for each record read.  When the
    file does not exist the run returns the status 1 without reading or
    writing anything. *)
Theorem main_outcome (R : Runtime) (F : Faults) (file_exists : result bool)
        (read_text : result string) (utcnow : string)
        (write_text : payload -> result unit) (s : io) :
  (file_exists = Ok false ->
   main file_exists read_text utcnow write_text s = (Ok (1, None), s))
  /\ forall status written s',
       main file_exists read_text utcnow write_text s
       = (Ok (status, written), s') ->
       (status = 1 /\ file_exists = Ok false /\ written = None /\ s' = s)
       \/ (status = 0 /\ file_exists = Ok true
           /\ exists text projects enriched,
                read_text = Ok text
                /\ parse_projects_yaml text = Ok projects
                /\ Raising.enrich projects s = (Ok enriched, s')
                /\ written = Some {| generated_at := (utcnow ++ "Z")%string;
                                     projects := enriched |}
                /\ write_text {| generated_at := (utcnow ++ "Z")%string;
                                 projects := enriched |} = Ok tt
                /\ length enriched = length projects).
Proof.
  split.
  - intros ->. reflexivity.
  - intros status written s'. unfold main, bind, lift, ret.
    destruct file_exists as [[|]|e]; cbn [negb]; [| |discriminate].
    + destruct read_text as [text|e]; [|discriminate].
      destruct (parse_projects_yaml text) as [projects|e] eqn:Hparse;
        [|discriminate].
      destruct (Raising.enrich projects s) as [[enriched|e] s1] eqn:Hrun;
        [|discriminate].
      destruct (write_text _) as [[]|e] eqn:Hwrite; [|discriminate].
      intros [= <- <- <-]. right. split; [reflexivity|]. split; [reflexivity|].
      exists text, projects, enriched. repeat split; try assumption.
      eapply raising_enrich_length; eauto.
    + intros [= <- <- <-]. left. auto.
Qed.

Lemma main_outcome_witness :
  let written :=
    {| generated_at := "2026-01-01T00:00:00Z";
       projects :=
         [ [("name", VStr "A");
            ("card", VDict [("type", EmptyString); ("title", "A");
                            ("description", EmptyString);
                            ("image", EmptyString); ("site", EmptyString)])] ] |}
  in
  (0 = 1 /\ Ok true = Ok false /\ Some written = None
   /\ @mkIO offline tt [] = @mkIO offline tt [])
  \/ (0 = 0 /\ Ok true = Ok true
      /\ exists text projects enriched,
           Ok "- name: A" = Ok text
           /\ parse_projects_yaml text = Ok projects
           /\ @Raising.enrich offline quiet projects (@mkIO offline tt [])
              = (Ok enriched, @mkIO offline tt [])
           /\ Some written
              = Some {| generated_at := "2026-01-01T00:00:00Z";
                        projects := enriched |}
           /\ Ok tt = Ok tt
           /\ length enriched = length projects).
Proof.
  intros written.
  exact (proj2 (main_outcome offline quiet (Ok true) (Ok "- name: A")
                  "2026-01-01T00:00:00" (fun _ => Ok tt) (@mkIO offline tt []))
               0 (Some written) (@mkIO offline tt []) eq_refl).
Defined.

(** A fetched page whose image the join rejects ends the batch: the
    exception is raised inside the [try], and the handler does not name
    it. *)
Example bad_image_ends_batch :
  fst (@Raising.enrich scripted
         (checked [StartTag "meta" [("property", Some "og:image");
                                    ("content", Some "//[")]])
         [ [("name", VStr "A"); ("url", VStr "https://a.test")];
           [("name", VStr "B")] ]
         (scripted_io [Ok (mkResponse None [])] []))
  = Raise (mkExn (OtherError "ValueError") "Invalid IPv6 URL").
Proof. reflexivity. Qed.
